(** * Flask ToDo app: a shallow embedding of [app.py] and its properties

    The module [app.py] keeps two process-wide globals, the dictionary
    [todos] (integer id to record) and the counter [next_id], and exposes
    them through Flask view functions.  The embedding below follows the
    file top to bottom:

    - [Py]      the fragment of Python the views rely on: JSON values as
                [json.loads] produces them, truth testing, [in] and
                subscripting with a string key, exceptions, int/int true
                division and float multiplication on binary64;
    - [Dict]    an insertion-ordered dictionary with integer keys;
    - [Clock]   [datetime.now().isoformat()];
    - [App]     the globals, the views and the request dispatch with the
                two registered error handlers, under each way the
                repository runs the application (debug server, test
                client, plain WSGI import). *)

From Stdlib Require Import ZArith List Sorted String Ascii Bool Lia.
From Stdlib Require Import QArith Qabs.
From Stdlib Require Import SpecFloat.
Import ListNotations.

Local Open Scope string_scope.
Local Open Scope Z_scope.
Set Warnings "-register-all".

(* ================================================================== *)
(** ** Python values and operations *)

Module Py.

(** What [request.get_json()] hands to a view: the result of
    [json.loads].  Integer literals become [int], the others [float]. *)
Inductive json : Type :=
| JNull
| JBool (b : bool)
| JInt (n : Z)
| JFloat (x : spec_float)
| JStr (s : string)
| JArr (items : list json)
| JObj (members : list (string * json)).

(** Exceptions that can leave a view.  [HTTPException] is werkzeug's
    family ([BadRequest] is 400, [NotFound] is 404, ...). *)
Inductive exn : Type :=
| TypeError
| KeyError
| ZeroDivisionError
| HTTPException (code : Z).

Inductive result (A : Type) : Type :=
| Return (a : A)
| Raise (e : exn).
Arguments Return {A} a.
Arguments Raise {A} e.

(** Truth value testing: [None], [False], zero, and empty containers and
    strings are false, everything else is true. *)
Definition truthy (v : json) : bool :=
  match v with
  | JNull => false
  | JBool b => b
  | JInt n => negb (n =? 0)
  | JFloat x => match x with S754_zero _ => false | _ => true end
  | JStr s => negb (String.eqb s "")
  | JArr items => match items with [] => false | _ => true end
  | JObj members => match members with [] => false | _ => true end
  end.

Fixpoint lookup (key : string) (members : list (string * json)) : option json :=
  match members with
  | [] => None
  | (k, v) :: rest => if String.eqb k key then Some v else lookup key rest
  end.

Definition str_eq (key : string) (v : json) : bool :=
  match v with JStr s => String.eqb s key | _ => false end.

(** [key in container] for a [str] key: key membership on a dict,
    element equality on a list, substring search on a str, and
    [TypeError] on everything that is not iterable. *)
Definition contains (key : string) (container : json) : result bool :=
  match container with
  | JObj members =>
      Return (match lookup key members with Some _ => true | None => false end)
  | JArr items => Return (existsb (str_eq key) items)
  | JStr s =>
      Return (match String.index 0 key s with Some _ => true | None => false end)
  | JNull | JBool _ | JInt _ | JFloat _ => Raise TypeError
  end.

(** [container[key]] for a [str] key: only a dict accepts it. *)
Definition getitem (container : json) (key : string) : result json :=
  match container with
  | JObj members =>
      match lookup key members with Some v => Return v | None => Raise KeyError end
  | _ => Raise TypeError
  end.

(** binary64 *)
Definition prec : Z := 53.
Definition emax : Z := 1024.

Definition float_of_int (n : Z) : spec_float :=
  match n with
  | Z0 => S754_zero false
  | Zpos p => S754_finite false p 0
  | Zneg p => S754_finite true p 0
  end.

(** [a / b] on two ints: the correctly rounded quotient. *)
Definition truediv (a b : Z) : result spec_float :=
  if b =? 0 then Raise ZeroDivisionError
  else Return (SFdiv prec emax (float_of_int a) (float_of_int b)).

(** [x * n] for a float and an int: the int is converted first. *)
Definition mul_float_int (x : spec_float) (n : Z) : spec_float :=
  SFmul prec emax x (float_of_int n).

(** The rational a finite float stands for (0 for infinities and NaN,
    which the statements below never meet). *)
Definition float_value (x : spec_float) : Q :=
  match x with
  | S754_finite s m e =>
      let mag := match e with
                 | Z0 => inject_Z (Zpos m)
                 | Zpos k => inject_Z (Zpos m * 2 ^ Zpos k)
                 | Zneg k => Qmake (Zpos m) (2 ^ k)%positive
                 end in
      if s then Qopp mag else mag
  | _ => 0%Q
  end.

End Py.
Import Py.

(* ================================================================== *)
(** ** Insertion-ordered dictionaries with integer keys *)

Module Dict.
Section Ops.
Context {V : Type}.

Definition t := list (Z * V).

Fixpoint get (k : Z) (d : list (Z * V)) : option V :=
  match d with
  | [] => None
  | (k', v) :: rest => if k' =? k then Some v else get k rest
  end.

(** [k in d] *)
Definition mem (k : Z) (d : list (Z * V)) : bool :=
  match get k d with Some _ => true | None => false end.

(** [d[k] = v]: an existing key keeps its position, a new one goes last. *)
Fixpoint set (k : Z) (v : V) (d : list (Z * V)) : list (Z * V) :=
  match d with
  | [] => [(k, v)]
  | (k', v') :: rest =>
      if k' =? k then (k, v) :: rest else (k', v') :: set k v rest
  end.

(** [d[k][field] = x]: the record stored under [k] is changed in place. *)
Fixpoint update (k : Z) (f : V -> V) (d : list (Z * V)) : list (Z * V) :=
  match d with
  | [] => []
  | (k', v) :: rest =>
      if k' =? k then (k', f v) :: rest else (k', v) :: update k f rest
  end.

(** the dictionary left by [d.pop(k)] *)
Fixpoint remove (k : Z) (d : list (Z * V)) : list (Z * V) :=
  match d with
  | [] => []
  | (k', v) :: rest =>
      if k' =? k then rest else (k', v) :: remove k rest
  end.

Definition keys (d : list (Z * V)) : list Z := map fst d.
Definition values (d : list (Z * V)) : list V := map snd d.
Definition len (d : list (Z * V)) : Z := Z.of_nat (List.length d).
End Ops.
End Dict.

(* ================================================================== *)
(** ** [datetime.now().isoformat()] *)

Module Clock.

Record datetime : Type := mkDatetime {
  year : nat; month : nat; day : nat;
  hour : nat; minute : nat; second : nat; microsecond : nat
}.

Definition digit (n : nat) : ascii := ascii_of_nat (48 + n mod 10).

(** The [w] low decimal digits of [n], zero padded, in front of [acc]. *)
Fixpoint zfill (w n : nat) (acc : string) : string :=
  match w with
  | O => acc
  | S w' => zfill w' (n / 10) (String (digit n) acc)
  end.

(** [YYYY-MM-DDTHH:MM:SS], followed by [.ffffff] unless the microsecond
    field is zero.  [datetime.now()] is naive, so no offset follows. *)
Definition isoformat (d : datetime) : string :=
  zfill 4 (year d) ("-" ++ zfill 2 (month d) ("-" ++ zfill 2 (day d) ("T" ++
  zfill 2 (hour d) (":" ++ zfill 2 (minute d) (":" ++ zfill 2 (second d)
  (if Nat.eqb (microsecond d) 0 then "" else "." ++ zfill 6 (microsecond d) "")))))).

End Clock.
Import Clock.

(* ================================================================== *)
(** ** The application *)

Module App.

(** A todo record: the four keys every dictionary stored in [todos]
    carries.  [title] and [completed] hold whatever JSON value the client
    sent. *)
Record todo : Type := mkTodo {
  t_id : Z;
  t_title : json;
  t_completed : json;
  t_created_at : string
}.

Definition set_title (x : json) (t : todo) : todo :=
  mkTodo (t_id t) x (t_completed t) (t_created_at t).

Definition set_completed (x : json) (t : todo) : todo :=
  mkTodo (t_id t) (t_title t) x (t_created_at t).

(** The two module globals. *)
Record state : Type := mkState {
  todos : list (Z * todo);
  next_id : Z
}.

(** The globals as the module body leaves them; [boot] is the clock at
    import time. *)
Definition initial_state (boot : datetime) : state :=
  mkState
    [ (1, mkTodo 1 (JStr "Learn GitHub Actions") (JBool false) (isoformat boot));
      (2, mkTodo 2 (JStr "Build CI/CD pipeline") (JBool false) (isoformat boot)) ]
    3.

(** *** Views as state-passing computations that may raise *)

Definition M (A : Type) : Type := state -> result A * state.

Definition ret {A} (a : A) : M A := fun s => (Return a, s).
Definition raise {A} (e : exn) : M A := fun s => (Raise e, s).
Definition bind {A B} (c : M A) (k : A -> M B) : M B :=
  fun s => match c s with
           | (Return a, s') => k a s'
           | (Raise e, s') => (Raise e, s')
           end.
Definition lift {A} (r : result A) : M A := fun s => (r, s).

Definition read_todos : M (list (Z * todo)) := fun s => (Return (todos s), s).
Definition write_todos (d : list (Z * todo)) : M unit :=
  fun s => (Return tt, mkState d (next_id s)).
Definition read_next_id : M Z := fun s => (Return (next_id s), s).
Definition write_next_id (n : Z) : M unit :=
  fun s => (Return tt, mkState (todos s) n).

Notation "x <- c ;; k" := (bind c (fun x => k))
  (at level 61, c at next level, right associativity).
Notation "c ;; k" := (bind c (fun _ => k))
  (at level 61, right associativity).

(** *** Requests and responses *)

(** The body of a request as [request.get_json()] sees it: either it
    parses, or [on_json_loading_failed] raises [BadRequest]. *)
Inductive payload : Type :=
| Malformed
| Parsed (v : json).

Definition get_json (p : payload) : M json :=
  match p with
  | Parsed v => ret v
  | Malformed => raise (HTTPException 400)
  end.

Inductive content : Type :=
| Json (j : json)
| Template (name : string) (context : list todo)
| ErrorPage (code : Z).

Record response : Type := mkResponse {
  body : content;
  status : Z
}.

(** [jsonify] of a todo record; [JSON_SORT_KEYS] is off, so the keys come
    out in insertion order. *)
Definition todo_json (t : todo) : json :=
  JObj [ ("id", JInt (t_id t));
         ("title", t_title t);
         ("completed", t_completed t);
         ("created_at", JStr (t_created_at t)) ].

Definition error_json (msg : string) : json := JObj [ ("error", JStr msg) ].

(** *** The views *)

Definition index : M response :=
  d <- read_todos ;;
  ret (mkResponse (Template "index.html" (Dict.values d)) 200).

Definition health : M response :=
  ret (mkResponse
         (Json (JObj [ ("status", JStr "healthy"); ("version", JStr "1.0.0") ]))
         200).

Definition get_todos : M response :=
  d <- read_todos ;;
  ret (mkResponse (Json (JArr (map todo_json (Dict.values d)))) 200).

(** [sum(1 for todo in todos.values() if todo['completed'])] *)
Definition count_completed (ts : list todo) : Z :=
  fold_left (fun acc t => if truthy (t_completed t) then acc + 1 else acc) ts 0.

Definition get_stats : M response :=
  d <- read_todos ;;
  let total := Dict.len d in
  let completed := count_completed (Dict.values d) in
  let pending := total - completed in
  rate <- (if 0 <? total
           then q <- lift (truediv completed total) ;;
                ret (JFloat (mul_float_int q 100))
           else ret (JInt 0)) ;;
  ret (mkResponse
         (Json (JObj [ ("total", JInt total);
                       ("completed", JInt completed);
                       ("pending", JInt pending);
                       ("completion_rate", rate) ]))
         200).

Definition create_todo (now : datetime) (p : payload) : M response :=
  data <- get_json p ;;
  missing <- (if negb (truthy data) then ret true
              else present <- lift (contains "title" data) ;;
                   ret (negb present)) ;;
  if missing then ret (mkResponse (Json (error_json "Title is required")) 400)
  else
    n <- read_next_id ;;
    title <- lift (getitem data "title") ;;
    let todo := mkTodo n title (JBool false) (isoformat now) in
    d <- read_todos ;;
    write_todos (Dict.set n todo d) ;;
    n' <- read_next_id ;;
    write_next_id (n' + 1) ;;
    ret (mkResponse (Json (todo_json todo)) 201).

Definition get_todo (todo_id : Z) : M response :=
  d <- read_todos ;;
  match Dict.get todo_id d with
  | None => ret (mkResponse (Json (error_json "Todo not found")) 404)
  | Some t => ret (mkResponse (Json (todo_json t)) 200)
  end.

(** [if key in data: todos[todo_id][key] = data[key]] *)
Definition assign_if_present (todo_id : Z) (data : json) (key : string)
    (setter : json -> todo -> todo) : M unit :=
  present <- lift (contains key data) ;;
  if present then
    x <- lift (getitem data key) ;;
    d <- read_todos ;;
    write_todos (Dict.update todo_id (setter x) d)
  else ret tt.

Definition update_todo (todo_id : Z) (p : payload) : M response :=
  d <- read_todos ;;
  if negb (Dict.mem todo_id d)
  then ret (mkResponse (Json (error_json "Todo not found")) 404)
  else
    data <- get_json p ;;
    assign_if_present todo_id data "title" set_title ;;
    assign_if_present todo_id data "completed" set_completed ;;
    d' <- read_todos ;;
    match Dict.get todo_id d' with
    | Some t => ret (mkResponse (Json (todo_json t)) 200)
    | None => raise KeyError
    end.

Definition delete_todo (todo_id : Z) : M response :=
  d <- read_todos ;;
  match Dict.get todo_id d with
  | None => ret (mkResponse (Json (error_json "Todo not found")) 404)
  | Some deleted =>
      write_todos (Dict.remove todo_id d) ;;
      ret (mkResponse (Json (todo_json deleted)) 200)
  end.

Definition not_found : response :=
  mkResponse (Json (error_json "Not found")) 404.

Definition server_error : response :=
  mkResponse (Json (error_json "Internal server error")) 500.

(** *** Dispatch *)

(** A request after URL matching.  The [int] converter of the three
    [/api/todos/<int:todo_id>] rules only matches digits, so [todo_id]
    arrives as an integer.  A URL of one of the rules with a method the
    rule does not list is [Wrong_method]; anything no rule matches is
    [Unmatched]. *)
Inductive request : Type :=
| GET_index
| GET_health
| GET_todos
| GET_stats
| POST_todos (p : payload)
| GET_todo (todo_id : Z)
| PUT_todo (todo_id : Z) (p : payload)
| DELETE_todo (todo_id : Z)
| Wrong_method
| Unmatched.

Definition dispatch_request (now : datetime) (r : request) : M response :=
  match r with
  | GET_index => index
  | GET_health => health
  | GET_todos => get_todos
  | GET_stats => get_stats
  | POST_todos p => create_todo now p
  | GET_todo todo_id => get_todo todo_id
  | PUT_todo todo_id p => update_todo todo_id p
  | DELETE_todo todo_id => delete_todo todo_id
  | Wrong_method => raise (HTTPException 405)
  | Unmatched => raise (HTTPException 404)
  end.

(** How the application object is run.  [app.py] never sets
    [PROPAGATE_EXCEPTIONS], so Flask propagates exceptions exactly when
    [TESTING] or debug is on: [python app.py] runs
    [app.run(debug=True, ...)], the test client fixture sets
    [app.config['TESTING'] = True], and an [app] imported by a WSGI
    server has both off. *)
Record config : Type := mkConfig {
  debug : bool;
  testing : bool
}.

Definition script_config : config := mkConfig true false.
Definition test_config : config := mkConfig false true.
Definition wsgi_config : config := mkConfig false false.

Definition propagate_exceptions (c : config) : bool := testing c || debug c.

(** What a request ends in: a response, or an exception that leaves the
    application (to the test that made the request, or to the debugger
    of the development server). *)
Inductive outcome : Type :=
| Answered (resp : response)
| Reraised (e : exn).

(** An [HTTPException] goes to the handler registered for its code
    ([errorhandler(404)] and [errorhandler(500)] are the two the module
    registers), or becomes its own default page. *)
Definition handle_http_exception (code : Z) : response :=
  if code =? 404 then not_found
  else if code =? 500 then server_error
  else mkResponse (ErrorPage code) code.

(** Any other exception is re-raised when exceptions propagate, and is
    otherwise logged and answered by the 500 handler. *)
Definition handle_exception (c : config) (e : exn) : outcome :=
  if propagate_exceptions c then Reraised e else Answered server_error.

Definition handle_user_exception (c : config) (e : exn) : outcome :=
  match e with
  | HTTPException code => Answered (handle_http_exception code)
  | _ => handle_exception c e
  end.

Definition full_dispatch_request (c : config) (now : datetime) (r : request)
    (s : state) : outcome * state :=
  match dispatch_request now r s with
  | (Return resp, s') => (Answered resp, s')
  | (Raise e, s') => (handle_user_exception c e, s')
  end.

(** The service handling a sequence of requests, one at a time, each
    with the clock reading it sees; the result is what each request ended
    in, in order, and the final globals.  A re-raised exception ends the
    request, not the service: the globals stay as the view left them. *)
Fixpoint serve (c : config) (reqs : list (datetime * request)) (s : state)
    : list (request * outcome) * state :=
  match reqs with
  | [] => ([], s)
  | (now, r) :: rest =>
      let (out, s') := full_dispatch_request c now r s in
      let (log, s'') := serve c rest s' in
      ((r, out) :: log, s'')
  end.

End App.
Import App.

(* ================================================================== *)
(** ** Vocabulary of the properties *)

(** A dictionary as Python can build it, and the globals as the views
    keep them: keys are distinct, every record is filed under its own
    [id], and every id in use lies below the counter. *)
Record store_ok (s : state) : Prop := mkStoreOk {
  ok_keys : NoDup (Dict.keys (todos s));
  ok_ids : forall k t, In (k, t) (todos s) -> t_id t = k;
  ok_fresh : forall k, In k (Dict.keys (todos s)) -> k < next_id s
}.

(** The part of the store [update] never touches: which keys there are,
    in which order, and the [id] filed under each. *)
Definition shape (d : list (Z * todo)) : list (Z * Z) :=
  map (fun kt => (fst kt, t_id (snd kt))) d.

(** The record [update] is specified to leave: the fields named in the
    request take the request's values, the others keep theirs. *)
Definition apply_fields (fields : list (string * json)) (t : todo) : todo :=
  mkTodo (t_id t)
         (match lookup "title" fields with Some x => x | None => t_title t end)
         (match lookup "completed" fields with Some x => x | None => t_completed t end)
         (t_created_at t).

(** The statistics as the specification words them. *)
Definition is_completed (t : todo) : bool := truthy (t_completed t).

Definition stats_total (s : state) : Z := Z.of_nat (List.length (todos s)).

Definition stats_completed (s : state) : Z :=
  Z.of_nat (List.length (filter is_completed (Dict.values (todos s)))).

Definition stats_rate (s : state) : json :=
  if stats_total s >? 0
  then JFloat (SFmul prec emax
                 (SFdiv prec emax (float_of_int (stats_completed s))
                                  (float_of_int (stats_total s)))
                 (float_of_int 100))
  else JInt 0.

Definition stats_json (s : state) : json :=
  JObj [ ("total", JInt (stats_total s));
         ("completed", JInt (stats_completed s));
         ("pending", JInt (stats_total s - stats_completed s));
         ("completion_rate", stats_rate s) ].

(** Reading a response. *)
Definition has_field (key : string) (resp : response) : bool :=
  match body resp with
  | Json (JObj members) =>
      match lookup key members with Some _ => true | None => false end
  | _ => false
  end.

Definition status_of (out : result response * state) : option Z :=
  match fst out with
  | Return resp => Some (status resp)
  | Raise _ => None
  end.

(** An operation addressed by id answers 404 exactly when the id is not
    in the store, leaves the store alone when it does, and answers 200
    when the id is there. *)
Definition not_found_iff_absent (op : Z -> M response) : Prop :=
  forall (s : state) (k : Z),
    (status_of (op k s) = Some 404 <-> Dict.mem k (todos s) = false) /\
    (Dict.mem k (todos s) = false ->
       exists resp, op k s = (Return resp, s) /\
                    status resp = 404 /\ has_field "error" resp = true) /\
    (Dict.mem k (todos s) = true -> status_of (op k s) = Some 200).

(** The id a logged exchange handed out, or took away. *)
Definition response_id (resp : response) : option Z :=
  match body resp with
  | Json (JObj members) =>
      match lookup "id" members with Some (JInt n) => Some n | _ => None end
  | _ => None
  end.

Definition created_id (ev : request * outcome) : option Z :=
  match ev with
  | (POST_todos _, Answered resp) =>
      if status resp =? 201 then response_id resp else None
  | _ => None
  end.

Definition deleted_id (ev : request * outcome) : option Z :=
  match ev with
  | (DELETE_todo k, Answered resp) => if status resp =? 200 then Some k else None
  | _ => None
  end.

Fixpoint created_ids (log : list (request * outcome)) : list Z :=
  match log with
  | [] => []
  | ev :: rest =>
      match created_id ev with
      | Some k => k :: created_ids rest
      | None => created_ids rest
      end
  end.

Definition carries_malformed (r : request) : bool :=
  match r with
  | POST_todos Malformed | PUT_todo _ Malformed => true
  | _ => false
  end.

(** A create request carries no title: there is no body value, or the
    body is an object without a [title] member. *)
Definition title_absent (data : json) : Prop :=
  data = JNull \/ exists fields, data = JObj fields /\ lookup "title" fields = None.

(** The flag is the JSON value [true]. *)
Definition flag_is_true (t : todo) : bool :=
  match t_completed t with JBool true => true | _ => false end.

Definition epoch : datetime := mkDatetime 2024 1 1 0 0 0 0.

Definition first_seed : todo :=
  mkTodo 1 (JStr "Learn GitHub Actions") (JBool false) (isoformat epoch).

(** Create, delete the new record, create again: ids 3 then 4. *)
Definition create_delete_create : list (datetime * request) :=
  [ (epoch, POST_todos (Parsed (JObj [("title", JStr "a")])));
    (epoch, DELETE_todo 3);
    (epoch, POST_todos (Parsed (JObj [("title", JStr "b")]))) ].

(** Requests served by the views that only read the globals. *)
Definition is_read (r : request) : bool :=
  match r with
  | GET_index | GET_health | GET_todos | GET_stats | GET_todo _ => true
  | _ => false
  end.

Fixpoint deleted_ids (log : list (request * outcome)) : list Z :=
  match log with
  | [] => []
  | ev :: rest =>
      match deleted_id ev with
      | Some k => k :: deleted_ids rest
      | None => deleted_ids rest
      end
  end.

(** [n] consecutive integers starting at [from]. *)
Fixpoint consecutive (from : Z) (n : nat) : list Z :=
  match n with
  | O => []
  | S n' => from :: consecutive (from + 1) n'
  end.

(** Whether [key in data] holds for a body that is an array or a string;
    [false] on every other kind of value. *)
Definition mentions (key : string) (data : json) : bool :=
  match contains key data with Return b => b | Raise _ => false end.

Definition is_scalar (data : json) : bool :=
  match data with
  | JNull | JBool _ | JInt _ | JFloat _ => true
  | _ => false
  end.

Definition is_sequence (data : json) : bool :=
  match data with
  | JStr _ | JArr _ => true
  | _ => false
  end.

(** Reading what a request ended in. *)
Definition answer_status (out : outcome) : option Z :=
  match out with
  | Answered resp => Some (status resp)
  | Reraised _ => None
  end.

(** The request failed: it was answered with an error status, or its
    exception was re-raised. *)
Definition failed (out : outcome) : bool :=
  match out with
  | Answered resp => 400 <=? status resp
  | Reraised _ => true
  end.

(** The view raised [TypeError] without writing, and the request ended
    as the configuration has it: answered by the 500 handler when
    exceptions do not propagate, re-raised when they do. *)
Definition ends_in_type_error (c : config) (view : result response * state)
    (s : state) (out : outcome) : Prop :=
  view = (Raise TypeError, s) /\
  (propagate_exceptions c = false -> out = Answered server_error) /\
  (propagate_exceptions c = true -> out = Reraised TypeError).

(** The list [get_todos] serialises. *)
Definition listing (s : state) : list todo := Dict.values (todos s).

(* ================================================================== *)
(** ** Dictionary lemmas *)

Section DictFacts.
Context {V : Type}.
Implicit Types (d : list (Z * V)) (k : Z) (v : V).

Lemma get_set_same d k v : Dict.get k (Dict.set k v d) = Some v.
Proof.
  induction d as [|[k' v'] d IH]; simpl.
  - now rewrite Z.eqb_refl.
  - destruct (k' =? k) eqn:E; simpl.
    + now rewrite Z.eqb_refl.
    + now rewrite E.
Qed.

Lemma get_set_other d k k' v :
  k' <> k -> Dict.get k' (Dict.set k v d) = Dict.get k' d.
Proof.
  intros Hne. induction d as [|[k0 v0] d IH]; simpl.
  - destruct (k =? k') eqn:E; [apply Z.eqb_eq in E; congruence | reflexivity].
  - destruct (k0 =? k) eqn:E; simpl.
    + apply Z.eqb_eq in E; subst k0.
      destruct (k =? k') eqn:E'; [apply Z.eqb_eq in E'; congruence | reflexivity].
    + destruct (k0 =? k'); [reflexivity | exact IH].
Qed.

Lemma get_update_same d k f :
  Dict.get k (Dict.update k f d) = option_map f (Dict.get k d).
Proof.
  induction d as [|[k' v'] d IH]; simpl; [reflexivity|].
  destruct (k' =? k) eqn:E; simpl; rewrite E; [reflexivity | exact IH].
Qed.

Lemma get_update_other d k k' f :
  k' <> k -> Dict.get k' (Dict.update k f d) = Dict.get k' d.
Proof.
  intros Hne. induction d as [|[k0 v0] d IH]; simpl; [reflexivity|].
  destruct (k0 =? k) eqn:E; simpl.
  - apply Z.eqb_eq in E; subst k0.
    destruct (k =? k') eqn:E'; [apply Z.eqb_eq in E'; congruence | reflexivity].
  - destruct (k0 =? k'); [reflexivity | exact IH].
Qed.

Lemma keys_update d k f : Dict.keys (Dict.update k f d) = Dict.keys d.
Proof.
  induction d as [|[k' v'] d IH]; simpl; [reflexivity|].
  destruct (k' =? k); simpl; [reflexivity | now f_equal].
Qed.

Lemma length_update d k f : List.length (Dict.update k f d) = List.length d.
Proof.
  induction d as [|[k' v'] d IH]; simpl; [reflexivity|].
  destruct (k' =? k); simpl; [reflexivity | now f_equal].
Qed.

Lemma in_update d k f k' v' :
  In (k', v') (Dict.update k f d) ->
  In (k', v') d \/ exists v, In (k', v) d /\ v' = f v.
Proof.
  induction d as [|[k0 v0] d IH]; simpl; [tauto|].
  destruct (k0 =? k); simpl.
  - intros [H|H]; [|tauto]. inversion H; subst. right; eauto.
  - intros [H|H]; [tauto|]. destruct (IH H) as [?|(v & ? & ?)]; [tauto|].
    right; eauto.
Qed.

Lemma get_in d k v : Dict.get k d = Some v -> In (k, v) d.
Proof.
  induction d as [|[k' v'] d IH]; simpl; [discriminate|].
  destruct (k' =? k) eqn:E.
  - apply Z.eqb_eq in E. intros [= <-]. left; now subst.
  - intros H; right; auto.
Qed.

Lemma in_keys d k v : In (k, v) d -> In k (Dict.keys d).
Proof. intros H. apply (in_map fst) in H. exact H. Qed.

Lemma get_none_keys d k : Dict.get k d = None <-> ~ In k (Dict.keys d).
Proof.
  induction d as [|[k' v'] d IH]; simpl; [tauto|].
  destruct (k' =? k) eqn:E.
  - apply Z.eqb_eq in E. split; [discriminate | intros H; exfalso; auto].
  - apply Z.eqb_neq in E. rewrite IH. tauto.
Qed.

Lemma in_get d k v : NoDup (Dict.keys d) -> In (k, v) d -> Dict.get k d = Some v.
Proof.
  induction d as [|[k' v'] d IH]; simpl; [tauto|].
  intros Hnd [H|H].
  - inversion H; subst. now rewrite Z.eqb_refl.
  - inversion Hnd as [|? ? Hnotin Hnd']; subst.
    destruct (k' =? k) eqn:E.
    + apply Z.eqb_eq in E; subst. exfalso. apply Hnotin. eapply in_keys; eauto.
    + auto.
Qed.

Lemma in_remove d k k' v : In (k', v) (Dict.remove k d) -> In (k', v) d.
Proof.
  induction d as [|[k0 v0] d IH]; simpl; [tauto|].
  destruct (k0 =? k); simpl; [tauto|]. intros [H|H]; auto.
Qed.

Lemma keys_remove_incl d k k' :
  In k' (Dict.keys (Dict.remove k d)) -> In k' (Dict.keys d).
Proof.
  unfold Dict.keys. rewrite !in_map_iff. intros ([k0 v0] & <- & H).
  exists (k0, v0). split; [reflexivity | eapply in_remove; eauto].
Qed.

Lemma nodup_remove d k : NoDup (Dict.keys d) -> NoDup (Dict.keys (Dict.remove k d)).
Proof.
  induction d as [|[k0 v0] d IH]; simpl; [auto|].
  intros Hnd. inversion Hnd as [|? ? Hnotin Hnd']; subst.
  destruct (k0 =? k); simpl; [assumption|].
  constructor; [|auto]. intros H. apply Hnotin. eapply keys_remove_incl; eauto.
Qed.

Lemma get_remove_same d k :
  NoDup (Dict.keys d) -> Dict.get k (Dict.remove k d) = None.
Proof.
  induction d as [|[k0 v0] d IH]; simpl; [reflexivity|].
  intros Hnd. inversion Hnd as [|? ? Hnotin Hnd']; subst.
  destruct (k0 =? k) eqn:E; simpl.
  - apply Z.eqb_eq in E; subst. now apply get_none_keys.
  - rewrite E. auto.
Qed.

Lemma get_remove_other d k k' :
  k' <> k -> Dict.get k' (Dict.remove k d) = Dict.get k' d.
Proof.
  intros Hne. induction d as [|[k0 v0] d IH]; simpl; [reflexivity|].
  destruct (k0 =? k) eqn:E; simpl.
  - apply Z.eqb_eq in E; subst k0.
    destruct (k =? k') eqn:E'; [apply Z.eqb_eq in E'; congruence | reflexivity].
  - destruct (k0 =? k'); [reflexivity | exact IH].
Qed.

Lemma in_remove_key d k k' v :
  NoDup (Dict.keys d) -> In (k', v) (Dict.remove k d) -> k' <> k.
Proof.
  intros Hnd Hin ->.
  pose proof (nodup_remove d k Hnd) as Hnd'.
  pose proof (in_get _ _ _ Hnd' Hin) as Hget.
  rewrite (get_remove_same d k Hnd) in Hget. discriminate.
Qed.

Lemma keys_set d k v :
  forall k', In k' (Dict.keys (Dict.set k v d)) -> k' = k \/ In k' (Dict.keys d).
Proof.
  induction d as [|[k0 v0] d IH]; simpl; intros k'.
  - intros [H|[]]; auto.
  - destruct (k0 =? k) eqn:E; simpl.
    + apply Z.eqb_eq in E; subst. tauto.
    + intros [H|H]; [tauto|]. destruct (IH _ H); tauto.
Qed.

Lemma in_set d k v k' v' :
  In (k', v') (Dict.set k v d) -> (k' = k /\ v' = v) \/ In (k', v') d.
Proof.
  induction d as [|[k0 v0] d IH]; simpl.
  - intros [H|[]]. inversion H; auto.
  - destruct (k0 =? k); simpl.
    + intros [H|H]; [inversion H; auto | tauto].
    + intros [H|H]; [tauto|]. destruct (IH H); tauto.
Qed.

Lemma nodup_set d k v : NoDup (Dict.keys d) -> NoDup (Dict.keys (Dict.set k v d)).
Proof.
  induction d as [|[k0 v0] d IH]; simpl.
  - intros _. constructor; [simpl; tauto | constructor].
  - intros Hnd. inversion Hnd as [|? ? Hnotin Hnd']; subst.
    destruct (k0 =? k) eqn:E; simpl.
    + apply Z.eqb_eq in E; subst. constructor; assumption.
    + apply Z.eqb_neq in E. constructor; [|auto].
      intros H. apply keys_set in H. destruct H; [congruence | auto].
Qed.

Lemma length_set_fresh d k v :
  Dict.get k d = None -> List.length (Dict.set k v d) = S (List.length d).
Proof.
  induction d as [|[k0 v0] d IH]; simpl; [reflexivity|].
  destruct (k0 =? k); [discriminate|]. intros H. simpl. now rewrite IH.
Qed.
End DictFacts.

(* ================================================================== *)
(** ** What each view computes *)

Ltac run_view :=
  unfold create_todo, update_todo, delete_todo, get_todo, get_todos, get_stats,
    index, health, assign_if_present, get_json,
    bind, ret, raise, lift,
    read_todos, write_todos, read_next_id, write_next_id;
  cbn [todos next_id fst snd].

Lemma mem_true_get {V} (d : list (Z * V)) k :
  Dict.mem k d = true -> exists v, Dict.get k d = Some v.
Proof. unfold Dict.mem. destruct (Dict.get k d); [eauto | discriminate]. Qed.

Lemma mem_false_get {V} (d : list (Z * V)) k :
  Dict.mem k d = false -> Dict.get k d = None.
Proof. unfold Dict.mem. destruct (Dict.get k d); [discriminate | reflexivity]. Qed.

Lemma mem_update {V} (d : list (Z * V)) k k' f :
  Dict.mem k' (Dict.update k f d) = Dict.mem k' d.
Proof.
  unfold Dict.mem. destruct (Z.eq_dec k' k) as [->|Hne].
  - rewrite get_update_same. now destruct (Dict.get k d).
  - now rewrite get_update_other.
Qed.

(** [create] on a JSON object. *)
Lemma create_todo_object now fields s :
  create_todo now (Parsed (JObj fields)) s =
  match lookup "title" fields with
  | None => (Return (mkResponse (Json (error_json "Title is required")) 400), s)
  | Some x =>
      let t := mkTodo (next_id s) x (JBool false) (isoformat now) in
      (Return (mkResponse (Json (todo_json t)) 201),
       mkState (Dict.set (next_id s) t (todos s)) (next_id s + 1))
  end.
Proof.
  run_view. destruct fields as [|[k v] rest]; [reflexivity|].
  cbn [truthy negb contains getitem].
  destruct (lookup "title" ((k, v) :: rest)); reflexivity.
Qed.

(** [create] on any body: either nothing changes and the answer is not a
    201, or a record is filed under the old counter and the counter
    moves up by one. *)
Lemma create_todo_cases now p s :
  (exists out, create_todo now p s = (out, s) /\ status_of (out, s) <> Some 201 /\
               (forall e, out = Raise e ->
                  e = TypeError \/ (e = HTTPException 400 /\ p = Malformed))) \/
  (exists x,
     let t := mkTodo (next_id s) x (JBool false) (isoformat now) in
     create_todo now p s =
       (Return (mkResponse (Json (todo_json t)) 201),
        mkState (Dict.set (next_id s) t (todos s)) (next_id s + 1))).
Proof.
  destruct p as [|data].
  - left. eexists; split; [reflexivity|]. split; [discriminate|].
    intros ? [= <-]. auto.
  - destruct data as [| b | n | x | str | items | fields].
    all: try (left; eexists; split; [reflexivity|]; split; [discriminate|];
              intros ? [= <-]; auto; fail).
    + left. run_view. cbn. destruct b; eexists; (split; [reflexivity|]);
        (split; [discriminate|]); intros ? [= <-]; auto.
    + left. run_view. cbn. destruct (n =? 0); eexists; (split; [reflexivity|]);
        (split; [discriminate|]); intros ? [= <-]; auto.
    + left. run_view. cbn. destruct x; eexists; (split; [reflexivity|]);
        (split; [discriminate|]); intros ? [= <-]; auto.
    + left. run_view. cbn [truthy contains getitem].
      destruct (negb (String.eqb str "")); cbn;
        [destruct (String.index 0 "title" str); cbn|];
        eexists; (split; [reflexivity|]); (split; [discriminate|]);
        intros ? [= <-]; auto.
    + left. run_view. cbn [truthy contains getitem].
      destruct items as [|i0 items]; cbn [negb];
        [|destruct (existsb (str_eq "title") (i0 :: items)); cbn];
        eexists; (split; [reflexivity|]); (split; [discriminate|]);
        intros ? [= <-]; auto.
    + rewrite create_todo_object. destruct (lookup "title" fields) as [x|].
      * right. exists x. reflexivity.
      * left. eexists; split; [reflexivity|]. split; [discriminate|]. discriminate.
Qed.

(** [update] on a JSON object whose id is in the store. *)
Lemma update_todo_object k fields s t :
  Dict.get k (todos s) = Some t ->
  update_todo k (Parsed (JObj fields)) s =
  (Return (mkResponse (Json (todo_json (apply_fields fields t))) 200),
   mkState
     (match lookup "completed" fields with
      | Some y =>
          Dict.update k (set_completed y)
            (match lookup "title" fields with
             | Some x => Dict.update k (set_title x) (todos s)
             | None => todos s
             end)
      | None =>
          match lookup "title" fields with
          | Some x => Dict.update k (set_title x) (todos s)
          | None => todos s
          end
      end)
     (next_id s)).
Proof.
  intros Hget. run_view. unfold Dict.mem. rewrite Hget. cbn [negb contains getitem].
  unfold apply_fields.
  destruct (lookup "title" fields) as [x|], (lookup "completed" fields) as [y|];
    cbn [todos next_id].
  - rewrite !get_update_same, Hget. reflexivity.
  - rewrite !get_update_same, Hget. reflexivity.
  - rewrite !get_update_same, Hget. destruct t; reflexivity.
  - rewrite Hget. destruct s, t; reflexivity.
Qed.

Lemma shape_update d k f :
  (forall t, t_id (f t) = t_id t) -> shape (Dict.update k f d) = shape d.
Proof.
  intros Hf. induction d as [|[k' t'] d IH]; simpl; [reflexivity|].
  destruct (k' =? k); simpl; [now rewrite Hf | now rewrite IH].
Qed.

Lemma shape_keys d : Dict.keys d = map fst (shape d).
Proof. unfold Dict.keys, shape. rewrite map_map. reflexivity. Qed.

Lemma shape_in d k t : In (k, t) d -> In (k, t_id t) (shape d).
Proof. intros H. unfold shape. apply in_map_iff. exists (k, t). auto. Qed.

Lemma store_ok_shape s s' :
  shape (todos s') = shape (todos s) -> next_id s' = next_id s ->
  store_ok s -> store_ok s'.
Proof.
  intros Hsh Hn [Hk Hi Hf]. constructor.
  - rewrite shape_keys, Hsh, <- shape_keys. exact Hk.
  - intros k t Hin. apply shape_in in Hin. rewrite Hsh in Hin.
    unfold shape in Hin. apply in_map_iff in Hin.
    destruct Hin as ([k0 t0] & Heq & Hin0). simpl in Heq.
    injection Heq as Hk0 Ht0. subst k0. rewrite <- Ht0. eauto.
  - intros k Hin. rewrite Hn. apply Hf.
    rewrite shape_keys in *. now rewrite <- Hsh.
Qed.

(** [update] on any body: the counter stays, the store keeps its shape,
    and when the view raises nothing was written. *)
Lemma update_todo_cases k p s :
  exists out d',
    update_todo k p s = (out, mkState d' (next_id s)) /\
    shape d' = shape (todos s) /\
    (forall e, out = Raise e ->
       d' = todos s /\ (e = TypeError \/ (e = HTTPException 400 /\ p = Malformed))).
Proof.
  destruct (Dict.mem k (todos s)) eqn:Hmem.
  2:{ run_view. rewrite Hmem. cbn. destruct s as [d n]. cbn.
      do 2 eexists. split; [reflexivity|]. split; [reflexivity|]. discriminate. }
  destruct (mem_true_get _ _ Hmem) as [t Hget].
  assert (Hs : s = mkState (todos s) (next_id s)) by (destruct s; reflexivity).
  destruct p as [|data].
  { run_view. rewrite Hmem. cbn. do 2 eexists. split; [f_equal; exact Hs|].
    split; [reflexivity|]. intros ? [= <-]. auto. }
  destruct data as [| b | n | x | str | items | fields].
  1-4: run_view; rewrite Hmem; cbn; do 2 eexists;
       (split; [f_equal; exact Hs|]); (split; [reflexivity|]);
       intros ? [= <-]; auto.
  - run_view. rewrite Hmem. cbn [negb contains getitem].
    destruct (String.index 0 "title" str); cbn [fst snd todos next_id].
    + do 2 eexists. split; [f_equal; exact Hs|]. split; [reflexivity|].
      intros ? [= <-]. auto.
    + destruct (String.index 0 "completed" str); cbn [fst snd todos next_id].
      * do 2 eexists. split; [f_equal; exact Hs|]. split; [reflexivity|].
        intros ? [= <-]. auto.
      * rewrite Hget. do 2 eexists. split; [f_equal; exact Hs|].
        split; [reflexivity|]. discriminate.
  - run_view. rewrite Hmem. cbn [negb contains getitem].
    destruct (existsb (str_eq "title") items); cbn [fst snd todos next_id].
    + do 2 eexists. split; [f_equal; exact Hs|]. split; [reflexivity|].
      intros ? [= <-]. auto.
    + destruct (existsb (str_eq "completed") items); cbn [fst snd todos next_id].
      * do 2 eexists. split; [f_equal; exact Hs|]. split; [reflexivity|].
        intros ? [= <-]. auto.
      * rewrite Hget. do 2 eexists. split; [f_equal; exact Hs|].
        split; [reflexivity|]. discriminate.
  - rewrite (update_todo_object _ _ _ _ Hget).
    do 2 eexists. split; [reflexivity|]. split; [|discriminate].
    destruct (lookup "completed" fields), (lookup "title" fields);
      rewrite ?shape_update; reflexivity || (intros []; reflexivity).
Qed.

Lemma delete_todo_present k s t :
  Dict.get k (todos s) = Some t ->
  delete_todo k s =
  (Return (mkResponse (Json (todo_json t)) 200),
   mkState (Dict.remove k (todos s)) (next_id s)).
Proof. intros H. run_view. rewrite H. reflexivity. Qed.

Lemma delete_todo_absent k s :
  Dict.get k (todos s) = None ->
  delete_todo k s =
  (Return (mkResponse (Json (error_json "Todo not found")) 404), s).
Proof. intros H. run_view. rewrite H. reflexivity. Qed.

Lemma get_todo_present k s t :
  Dict.get k (todos s) = Some t ->
  get_todo k s = (Return (mkResponse (Json (todo_json t)) 200), s).
Proof. intros H. run_view. rewrite H. reflexivity. Qed.

Lemma get_todo_absent k s :
  Dict.get k (todos s) = None ->
  get_todo k s = (Return (mkResponse (Json (error_json "Todo not found")) 404), s).
Proof. intros H. run_view. rewrite H. reflexivity. Qed.

Lemma update_todo_absent k p s :
  Dict.mem k (todos s) = false ->
  update_todo k p s =
  (Return (mkResponse (Json (error_json "Todo not found")) 404), s).
Proof. intros H. run_view. rewrite H. reflexivity. Qed.

(** *** The invariant *)

Lemma store_ok_initial boot : store_ok (initial_state boot).
Proof.
  constructor; unfold initial_state; cbn [todos next_id Dict.keys map fst].
  - repeat constructor; cbn [In]; intuition lia.
  - intros k t [H|[H|[]]]; injection H as <- <-; reflexivity.
  - intros k [<-|[<-|[]]]; lia.
Qed.

Lemma store_ok_create s x stamp :
  store_ok s ->
  store_ok (mkState (Dict.set (next_id s)
                       (mkTodo (next_id s) x (JBool false) stamp) (todos s))
                    (next_id s + 1)).
Proof.
  intros [Hk Hi Hf]. constructor; cbn.
  - now apply nodup_set.
  - intros k t Hin. apply in_set in Hin. destruct Hin as [[-> ->]|Hin]; auto.
  - intros k Hin. apply keys_set in Hin. destruct Hin as [->|Hin]; [lia|].
    specialize (Hf _ Hin). lia.
Qed.

Lemma store_ok_remove s k :
  store_ok s -> store_ok (mkState (Dict.remove k (todos s)) (next_id s)).
Proof.
  intros [Hk Hi Hf]. constructor; cbn.
  - now apply nodup_remove.
  - intros k' t Hin. apply in_remove in Hin. auto.
  - intros k' Hin. apply keys_remove_incl in Hin. auto.
Qed.

(** *** Statistics *)

Lemma count_completed_from ts acc :
  fold_left (fun a t => if truthy (t_completed t) then a + 1 else a) ts acc =
  acc + Z.of_nat (List.length (filter is_completed ts)).
Proof.
  revert acc. induction ts as [|t ts IH]; intros acc; simpl; [lia|].
  rewrite IH. unfold is_completed. destruct (truthy (t_completed t)); simpl; lia.
Qed.

Lemma count_completed_filter ts :
  count_completed ts = Z.of_nat (List.length (filter is_completed ts)).
Proof. unfold count_completed. rewrite count_completed_from. lia. Qed.

Lemma get_stats_eq s :
  get_stats s = (Return (mkResponse (Json (stats_json s)) 200), s).
Proof.
  run_view. rewrite count_completed_filter. unfold Dict.len.
  unfold stats_json, stats_rate, stats_completed, stats_total.
  rewrite Z.gtb_ltb.
  destruct (0 <? Z.of_nat (List.length (todos s))) eqn:Hpos; [|reflexivity].
  unfold truediv. apply Z.ltb_lt in Hpos.
  destruct (Z.of_nat (List.length (todos s)) =? 0) eqn:Hz;
    [apply Z.eqb_eq in Hz; lia | reflexivity].
Qed.

(** *** One request *)

Lemma state_eta s : mkState (todos s) (next_id s) = s.
Proof. destruct s; reflexivity. Qed.

(** Every request either leaves the counter alone and hands out no id,
    or is a successful [create], which hands out the counter's value and
    moves the counter up by one. *)
Lemma step_effect c now r s :
  let out := full_dispatch_request c now r s in
  (next_id (snd out) = next_id s /\ created_id (r, fst out) = None /\
   (shape (todos (snd out)) = shape (todos s) \/
    exists k, todos (snd out) = Dict.remove k (todos s))) \/
  (created_id (r, fst out) = Some (next_id s) /\
   exists x stamp,
     snd out = mkState (Dict.set (next_id s)
                          (mkTodo (next_id s) x (JBool false) stamp) (todos s))
                       (next_id s + 1)).
Proof.
  unfold full_dispatch_request.
  destruct r as [| | | | p | k | k p | k | |]; cbn [dispatch_request].
  - left. run_view. cbn. auto.
  - left. run_view. cbn. auto.
  - left. run_view. cbn. auto.
  - left. rewrite get_stats_eq. cbn. auto.
  - destruct (create_todo_cases now p s) as [(out & Heq & Hst & Hexn)|(x & Heq)].
    + left. rewrite Heq. destruct out as [resp|e]; cbn [fst snd].
      * split; [reflexivity|]. split; [|auto].
        cbn in Hst. cbn [created_id].
        destruct (status resp =? 201) eqn:E; [|reflexivity].
        apply Z.eqb_eq in E. congruence.
      * split; [reflexivity|]. split; [|auto].
        destruct (Hexn e eq_refl) as [->|[-> _]]; [|reflexivity].
        unfold handle_user_exception, handle_exception.
        destruct (propagate_exceptions c); reflexivity.
    + right. cbn zeta in Heq. rewrite Heq. cbn [fst snd]. split.
      * reflexivity.
      * eauto.
  - left. run_view. destruct (Dict.get k (todos s)); cbn; auto.
  - left. destruct (update_todo_cases k p s) as (out & d' & Heq & Hsh & _).
    rewrite Heq. destruct out; cbn; auto.
  - left. destruct (Dict.get k (todos s)) as [t|] eqn:Hget.
    + rewrite (delete_todo_present _ _ _ Hget). cbn. eauto.
    + rewrite (delete_todo_absent _ _ Hget). cbn. auto.
  - left. run_view. cbn. auto.
  - left. run_view. cbn. auto.
Qed.

Lemma step_deleted c now r s k :
  deleted_id (r, fst (full_dispatch_request c now r s)) = Some k ->
  In k (Dict.keys (todos s)).
Proof.
  unfold full_dispatch_request.
  destruct r as [| | | | p | k' | k' p | k' | |]; cbn [deleted_id]; try discriminate.
  cbn [dispatch_request].
  destruct (Dict.get k' (todos s)) as [t|] eqn:Hget.
  - rewrite (delete_todo_present _ _ _ Hget). cbn.
    intros [= <-]. eapply in_keys, get_in; eauto.
  - rewrite (delete_todo_absent _ _ Hget). cbn. discriminate.
Qed.

Lemma step_counter c now r s :
  next_id s <= next_id (snd (full_dispatch_request c now r s)).
Proof.
  destruct (step_effect c now r s) as [(H & _)|(_ & x & stamp & H)];
    rewrite H; cbn; lia.
Qed.

Lemma step_store_ok c now r s :
  store_ok s -> store_ok (snd (full_dispatch_request c now r s)).
Proof.
  intros Hok.
  destruct (step_effect c now r s) as [(Hn & _ & [Hsh|(k & Hrm)])|(_ & x & stamp & H)].
  - eapply store_ok_shape; eauto.
  - pose proof (store_ok_remove s k Hok) as Hok'.
    destruct (snd (full_dispatch_request c now r s)) as [d n].
    cbn in Hn, Hrm. subst. exact Hok'.
  - rewrite H. now apply store_ok_create.
Qed.

(** *** A sequence of requests *)

Lemma serve_cons c now r rest s :
  serve c ((now, r) :: rest) s =
  ((r, fst (full_dispatch_request c now r s))
     :: fst (serve c rest (snd (full_dispatch_request c now r s))),
   snd (serve c rest (snd (full_dispatch_request c now r s)))).
Proof.
  cbn [serve]. destruct (full_dispatch_request c now r s) as [resp s'].
  cbn [fst snd]. destruct (serve c rest s'); reflexivity.
Qed.

Lemma serve_app c reqs1 reqs2 s :
  serve c (reqs1 ++ reqs2) s =
  (fst (serve c reqs1 s) ++ fst (serve c reqs2 (snd (serve c reqs1 s))),
   snd (serve c reqs2 (snd (serve c reqs1 s))))%list.
Proof.
  revert s. induction reqs1 as [|[now r] reqs1 IH]; intros s.
  - cbn. destruct (serve c reqs2 s); reflexivity.
  - rewrite <- app_comm_cons, !serve_cons, IH. reflexivity.
Qed.

Lemma serve_counter c reqs s : next_id s <= next_id (snd (serve c reqs s)).
Proof.
  revert s. induction reqs as [|[now r] reqs IH]; intros s; [cbn; lia|].
  rewrite serve_cons. cbn [snd].
  pose proof (step_counter c now r s).
  specialize (IH (snd (full_dispatch_request c now r s))). lia.
Qed.

Lemma serve_store_ok c reqs s : store_ok s -> store_ok (snd (serve c reqs s)).
Proof.
  revert s. induction reqs as [|[now r] reqs IH]; intros s Hok; [exact Hok|].
  rewrite serve_cons. cbn [snd]. apply IH. now apply step_store_ok.
Qed.

(** Ids handed out during a run start at the counter and go up. *)
Lemma serve_created_bounds c reqs s :
  Forall (fun k => next_id s <= k) (created_ids (fst (serve c reqs s))) /\
  StronglySorted Z.lt (created_ids (fst (serve c reqs s))).
Proof.
  revert s. induction reqs as [|[now r] reqs IH]; intros s.
  - cbn. split; constructor.
  - rewrite serve_cons. cbn [fst created_ids].
    destruct (IH (snd (full_dispatch_request c now r s))) as [Hlow Hsorted].
    pose proof (step_counter c now r s) as Hmono.
    destruct (step_effect c now r s) as [(Hn & Hc & _)|(Hc & x & stamp & Hs)]; rewrite Hc.
    + split; [|exact Hsorted].
      eapply Forall_impl; [|exact Hlow]. cbn. intros; lia.
    + assert (Hn : next_id (snd (full_dispatch_request c now r s)) = next_id s + 1)
        by (rewrite Hs; reflexivity).
      split.
      * constructor; [lia|]. eapply Forall_impl; [|exact Hlow]. cbn. intros; lia.
      * constructor; [exact Hsorted|].
        eapply Forall_impl; [|exact Hlow]. cbn. intros; lia.
Qed.

Lemma sorted_lt_nodup (l : list Z) : StronglySorted Z.lt l -> NoDup l.
Proof.
  induction 1 as [|a l Hs IH Hall]; constructor; [|exact IH].
  intros Hin. rewrite Forall_forall in Hall. specialize (Hall _ Hin). lia.
Qed.

(** An id taken out of an orderly store is below every id handed out later. *)
Lemma serve_no_reuse c log1 ev log2 reqs s k :
  store_ok s ->
  fst (serve c reqs s) = (log1 ++ ev :: log2)%list ->
  deleted_id ev = Some k ->
  ~ In k (created_ids log2).
Proof.
  revert s reqs. induction log1 as [|ev1 log1 IH]; intros s reqs Hok Hlog Hdel.
  - destruct reqs as [|[now r] reqs]; [discriminate|].
    rewrite serve_cons in Hlog. cbn [fst app] in Hlog.
    injection Hlog as Hev Hrest. subst ev.
    apply step_deleted in Hdel. apply (ok_fresh _ Hok) in Hdel.
    pose proof (step_counter c now r s) as Hmono.
    destruct (serve_created_bounds c reqs (snd (full_dispatch_request c now r s)))
      as [Hlow _].
    rewrite Hrest in Hlow. rewrite Forall_forall in Hlow.
    intros Hin. specialize (Hlow _ Hin). cbn in Hlow. lia.
  - destruct reqs as [|[now r] reqs]; [discriminate|].
    rewrite serve_cons in Hlog. cbn [fst] in Hlog.
    rewrite <- app_comm_cons in Hlog. injection Hlog as _ Hrest.
    eapply IH; [|exact Hrest|exact Hdel]. now apply step_store_ok.
Qed.

(** *** Timestamps *)

Lemma zfill_length w n acc :
  String.length (zfill w n acc) = (w + String.length acc)%nat.
Proof.
  revert n acc. induction w as [|w IH]; intros n acc; cbn [zfill]; [reflexivity|].
  rewrite IH. cbn [String.length]. lia.
Qed.

Lemma isoformat_length d :
  String.length (isoformat d) =
  if Nat.eqb (microsecond d) 0 then 19%nat else 26%nat.
Proof.
  unfold isoformat.
  repeat (rewrite zfill_length; cbn [String.append String.length]).
  destruct (Nat.eqb (microsecond d) 0); cbn [String.append String.length].
  - reflexivity.
  - rewrite zfill_length. reflexivity.
Qed.

Lemma isoformat_nonempty d : isoformat d <> "".
Proof.
  intros H. pose proof (isoformat_length d) as Hlen. rewrite H in Hlen.
  destruct (Nat.eqb (microsecond d) 0); discriminate.
Qed.

Lemma todo_json_inj t t' : todo_json t = todo_json t' -> t = t'.
Proof. destruct t, t'. unfold todo_json. cbn. intros [= -> -> -> ->]. reflexivity. Qed.

(** *** What can leave a view *)

Lemma dispatch_raise now r s e s' :
  dispatch_request now r s = (Raise e, s') ->
  s' = s /\
  (e = TypeError \/
   (e = HTTPException 400 /\ carries_malformed r = true) \/
   (e = HTTPException 405 /\ r = Wrong_method) \/
   (e = HTTPException 404 /\ r = Unmatched)).
Proof.
  destruct r as [| | | | p | k | k p | k | |]; cbn [dispatch_request].
  - run_view. discriminate.
  - run_view. discriminate.
  - run_view. discriminate.
  - rewrite get_stats_eq. discriminate.
  - destruct (create_todo_cases now p s) as [(out & Heq & _ & Hexn)|(x & Heq)].
    + rewrite Heq. intros [= -> <-]. split; [reflexivity|].
      destruct (Hexn e eq_refl) as [->|[-> ->]]; auto.
    + cbn zeta in Heq. rewrite Heq. discriminate.
  - run_view. destruct (Dict.get k (todos s)); discriminate.
  - destruct (update_todo_cases k p s) as (out & d' & Heq & _ & Hexn).
    rewrite Heq. intros [= -> <-].
    destruct (Hexn e eq_refl) as [-> Hc]. split; [apply state_eta|].
    destruct Hc as [->|[-> ->]]; auto.
  - run_view. destruct (Dict.get k (todos s)); discriminate.
  - run_view. intros [= <- <-].
    split; [reflexivity | right; right; left; split; reflexivity].
  - run_view. intros [= <- <-].
    split; [reflexivity | right; right; right; split; reflexivity].
Qed.

(* ================================================================== *)
(** ** The properties *)

(** C1, the claim as worded fails on an empty-string title: [create_todo]
    only tests that the key is there, so the body [{"title": ""}] is
    answered 201, a third record is stored and the counter moves from 3
    to 4. *)
Lemma create_empty_title_accepted :
  let out := create_todo epoch (Parsed (JObj [("title", JStr "")]))
                         (initial_state epoch) in
  status_of out = Some 201 /\
  status_of out <> Some 400 /\
  Dict.len (todos (snd out)) = 3 /\
  Dict.len (todos (initial_state epoch)) = 2 /\
  next_id (snd out) = 4 /\
  next_id (initial_state epoch) = 3.
Proof.
  rewrite create_todo_object. cbn [lookup String.eqb Ascii.eqb Bool.eqb].
  cbn. repeat split; try reflexivity. discriminate.
Qed.

(** C1, amended: a create request whose title is absent (no body value,
    or an object without a [title] member) is answered 400 with the body
    [{"error": "Title is required"}], and the globals are left exactly as
    they were: same records, same size, same counter. *)
Theorem create_missing_title_rejected now data s :
  title_absent data ->
  let out := create_todo now (Parsed data) s in
  exists resp,
    fst out = Return resp /\
    status resp = 400 /\
    has_field "error" resp = true /\
    body resp = Json (error_json "Title is required") /\
    snd out = s /\
    todos (snd out) = todos s /\
    Dict.len (todos (snd out)) = Dict.len (todos s) /\
    next_id (snd out) = next_id s.
Proof.
  intros [->|(fields & -> & Hno)]; cbn zeta.
  - eexists. repeat split; reflexivity.
  - rewrite create_todo_object, Hno. eexists. repeat split; reflexivity.
Qed.

Lemma create_missing_title_rejected_witness :
  title_absent (JObj []) /\
  exists resp,
    fst (create_todo epoch (Parsed (JObj [])) (initial_state epoch)) = Return resp /\
    status resp = 400 /\
    has_field "error" resp = true /\
    body resp = Json (error_json "Title is required") /\
    snd (create_todo epoch (Parsed (JObj [])) (initial_state epoch)) = initial_state epoch /\
    todos (snd (create_todo epoch (Parsed (JObj [])) (initial_state epoch)))
      = todos (initial_state epoch) /\
    Dict.len (todos (snd (create_todo epoch (Parsed (JObj [])) (initial_state epoch))))
      = Dict.len (todos (initial_state epoch)) /\
    next_id (snd (create_todo epoch (Parsed (JObj [])) (initial_state epoch)))
      = next_id (initial_state epoch).
Proof.
  assert (H : title_absent (JObj []))
    by (right; exists []; split; reflexivity).
  split; [exact H|].
  exact (create_missing_title_rejected epoch (JObj []) (initial_state epoch) H).
Defined.

(** C2: for every state of the store, [get_stats] answers 200 with
    [total] the number of records, [completed] the number of records
    whose flag tests true, [pending] their difference and
    [completion_rate] the binary64 value of [completed / total * 100], or
    the integer 0 when the store is empty; when every flag is a JSON
    boolean, [completed] counts the records whose flag is [true].  From
    the two seeded records, after one successful create and one update
    setting [completed] to [true] on any one of the three records, the
    answer is total 3, completed 1, pending 2 and a rate within 0.005 of
    33.33. *)
Theorem stats_formula_and_scenario :
  (forall s, get_stats s = (Return (mkResponse (Json (stats_json s)) 200), s)) /\
  (forall s,
     (forall t, In t (Dict.values (todos s)) -> exists b, t_completed t = JBool b) ->
     stats_completed s =
     Z.of_nat (List.length (filter flag_is_true (Dict.values (todos s))))) /\
  (forall s, stats_total s = 0 -> stats_rate s = JInt 0) /\
  (forall boot now x k,
     In k [1; 2; 3] ->
     let s1 := snd (create_todo now (Parsed (JObj [("title", x)])) (initial_state boot)) in
     let s2 := snd (update_todo k (Parsed (JObj [("completed", JBool true)])) s1) in
     exists rate,
       get_stats s2 =
         (Return (mkResponse
                    (Json (JObj [ ("total", JInt 3);
                                  ("completed", JInt 1);
                                  ("pending", JInt 2);
                                  ("completion_rate", JFloat rate) ]))
                    200), s2) /\
       (Qabs (float_value rate - (3333 # 100)) < 1 # 200)%Q).
Proof.
  split; [exact get_stats_eq|]. split; [|split].
  - intros s Hbool. unfold stats_completed. f_equal. f_equal.
    induction (Dict.values (todos s)) as [|t ts IH]; [reflexivity|].
    cbn [filter]. rewrite IH by (intros t' Hin; apply Hbool; now right).
    destruct (Hbool t (or_introl eq_refl)) as [b Hb].
    unfold is_completed, flag_is_true. rewrite Hb. destruct b; reflexivity.
  - intros s H0. unfold stats_rate. rewrite H0. reflexivity.
  - intros boot now x k Hk. cbn zeta.
    rewrite create_todo_object. cbn [lookup String.eqb Ascii.eqb Bool.eqb snd].
    unfold initial_state. cbn [todos next_id Dict.set Z.eqb Pos.eqb Z.add Pos.add Pos.succ].
    generalize (isoformat boot) as stamp0. generalize (isoformat now) as stamp1.
    intros stamp1 stamp0.
    destruct Hk as [<-|[<-|[<-|[]]]].
    all: erewrite update_todo_object by reflexivity.
    all: rewrite get_stats_eq.
    all: eexists; split; [vm_compute; reflexivity | vm_compute; reflexivity].
Qed.

Lemma stats_formula_and_scenario_witness :
  In 3 [1; 2; 3] /\
  exists rate,
    get_stats
      (snd (update_todo 3 (Parsed (JObj [("completed", JBool true)]))
         (snd (create_todo epoch (Parsed (JObj [("title", JStr "Write tests")]))
                 (initial_state epoch)))))
    = (Return (mkResponse
                 (Json (JObj [ ("total", JInt 3);
                               ("completed", JInt 1);
                               ("pending", JInt 2);
                               ("completion_rate", JFloat rate) ]))
                 200),
       snd (update_todo 3 (Parsed (JObj [("completed", JBool true)]))
         (snd (create_todo epoch (Parsed (JObj [("title", JStr "Write tests")]))
                 (initial_state epoch))))) /\
    (Qabs (float_value rate - (3333 # 100)) < 1 # 200)%Q.
Proof.
  assert (H : In 3 [1; 2; 3]) by (cbn; auto).
  split; [exact H|].
  exact (proj2 (proj2 (proj2 stats_formula_and_scenario))
           epoch epoch (JStr "Write tests") 3 H).
Defined.

(** C3: from any orderly state of the globals (distinct keys, each
    record under its own id, every key below the counter; the seeded
    state is one, and every request keeps it so) and for every sequence
    of requests: no request lowers the counter, the ids handed out by the
    successful creates are strictly increasing in the order of the
    requests, hence pairwise distinct, and an id taken out by a
    successful delete is not handed out by any later create. *)
Theorem ids_strictly_increase_never_reused c s reqs :
  store_ok s ->
  let run := serve c reqs s in
  store_ok (snd run) /\
  next_id s <= next_id (snd run) /\
  (forall now r s0, next_id s0 <= next_id (snd (full_dispatch_request c now r s0))) /\
  (forall reqs', next_id (snd run) <= next_id (snd (serve c (reqs ++ reqs') s))) /\
  StronglySorted Z.lt (created_ids (fst run)) /\
  NoDup (created_ids (fst run)) /\
  Forall (fun k => next_id s <= k) (created_ids (fst run)) /\
  (forall log1 ev log2 k,
     fst run = (log1 ++ ev :: log2)%list ->
     deleted_id ev = Some k ->
     ~ In k (created_ids log2)).
Proof.
  intros Hok. cbn zeta.
  destruct (serve_created_bounds c reqs s) as [Hlow Hsorted].
  split; [now apply serve_store_ok|].
  split; [apply serve_counter|].
  split; [intros; apply step_counter|].
  split; [intros reqs'; rewrite serve_app; cbn [snd]; apply serve_counter|].
  split; [exact Hsorted|].
  split; [now apply sorted_lt_nodup|].
  split; [exact Hlow|].
  intros log1 ev log2 k Hlog Hdel. eapply serve_no_reuse; eauto.
Qed.

Lemma ids_strictly_increase_never_reused_witness :
  store_ok (initial_state epoch) /\
  created_ids (fst (serve wsgi_config create_delete_create (initial_state epoch))) = [3; 4] /\
  StronglySorted Z.lt
    (created_ids (fst (serve wsgi_config create_delete_create (initial_state epoch)))) /\
  NoDup (created_ids (fst (serve wsgi_config create_delete_create (initial_state epoch)))).
Proof.
  pose proof (ids_strictly_increase_never_reused wsgi_config (initial_state epoch)
                create_delete_create (store_ok_initial epoch)) as H.
  cbn zeta in H.
  split; [exact (store_ok_initial epoch)|].
  split; [vm_compute; reflexivity|].
  split; [exact (proj1 (proj2 (proj2 (proj2 (proj2 H)))))|].
  exact (proj1 (proj2 (proj2 (proj2 (proj2 (proj2 H)))))).
Defined.

(** C4: for every id in the store and every JSON object as request
    body, [update_todo] answers 200 with the record in which exactly the
    members [title] and [completed] present in the body have taken the
    body's values; [id] and [created_at] keep theirs, a field the body
    does not name keeps its, every other record, the set and order of
    keys and the counter are unchanged.  With the body
    [{"completed": true}] only [completed] changes. *)
Theorem update_changes_only_named_fields s k t fields :
  Dict.get k (todos s) = Some t ->
  let out := update_todo k (Parsed (JObj fields)) s in
  let t' := apply_fields fields t in
  fst out = Return (mkResponse (Json (todo_json t')) 200) /\
  Dict.get k (todos (snd out)) = Some t' /\
  t_id t' = t_id t /\
  t_created_at t' = t_created_at t /\
  (forall x, lookup "title" fields = Some x -> t_title t' = x) /\
  (lookup "title" fields = None -> t_title t' = t_title t) /\
  (forall y, lookup "completed" fields = Some y -> t_completed t' = y) /\
  (lookup "completed" fields = None -> t_completed t' = t_completed t) /\
  (forall k', k' <> k -> Dict.get k' (todos (snd out)) = Dict.get k' (todos s)) /\
  Dict.keys (todos (snd out)) = Dict.keys (todos s) /\
  next_id (snd out) = next_id s /\
  (fields = [("completed", JBool true)] ->
   t' = mkTodo (t_id t) (t_title t) (JBool true) (t_created_at t)).
Proof.
  intros Hget. cbn zeta. rewrite (update_todo_object _ _ _ _ Hget). cbn [fst snd todos next_id].
  split; [reflexivity|].
  split.
  { unfold apply_fields.
    destruct (lookup "completed" fields) as [y|], (lookup "title" fields) as [x|];
      rewrite ?get_update_same, ?Hget; try reflexivity.
    destruct t; reflexivity. }
  split; [reflexivity|]. split; [reflexivity|].
  unfold apply_fields; cbn [t_title t_completed].
  split; [intros x ->; reflexivity|].
  split; [intros ->; reflexivity|].
  split; [intros y ->; reflexivity|].
  split; [intros ->; reflexivity|].
  split.
  { intros k' Hne.
    destruct (lookup "completed" fields), (lookup "title" fields);
      rewrite ?get_update_other by assumption; reflexivity. }
  split.
  { destruct (lookup "completed" fields), (lookup "title" fields);
      rewrite ?keys_update; reflexivity. }
  split; [reflexivity|].
  intros ->. reflexivity.
Qed.

Lemma update_changes_only_named_fields_witness :
  Dict.get 1 (todos (initial_state epoch)) = Some first_seed /\
  fst (update_todo 1 (Parsed (JObj [("completed", JBool true)])) (initial_state epoch))
    = Return (mkResponse
                (Json (todo_json (apply_fields [("completed", JBool true)] first_seed)))
                200) /\
  apply_fields [("completed", JBool true)] first_seed
    = mkTodo 1 (JStr "Learn GitHub Actions") (JBool true) (isoformat epoch).
Proof.
  assert (H : Dict.get 1 (todos (initial_state epoch)) = Some first_seed)
    by reflexivity.
  pose proof (update_changes_only_named_fields (initial_state epoch) 1 first_seed
                [("completed", JBool true)] H) as P.
  cbn zeta in P.
  split; [exact H|]. split; [exact (proj1 P)|]. reflexivity.
Defined.

(** C5: [get_todo], [update_todo] (with a JSON object as body) and
    [delete_todo] answer 404 exactly when the id is not in the store; the
    404 answer carries an [error] member and leaves the globals as they
    were; when the id is in the store the answer is 200.  For
    [update_todo] the 404 on an absent id does not depend on the body. *)
Theorem not_found_exactly_when_absent :
  not_found_iff_absent get_todo /\
  (forall fields,
     not_found_iff_absent (fun k => update_todo k (Parsed (JObj fields)))) /\
  not_found_iff_absent delete_todo /\
  (forall p s k,
     Dict.mem k (todos s) = false ->
     update_todo k p s =
     (Return (mkResponse (Json (error_json "Todo not found")) 404), s)).
Proof.
  split; [|split; [|split]].
  - intros s k. destruct (Dict.mem k (todos s)) eqn:Hmem.
    + destruct (mem_true_get _ _ Hmem) as [t Hget].
      rewrite (get_todo_present _ _ _ Hget). cbn.
      repeat split; try discriminate; reflexivity.
    + rewrite (get_todo_absent _ _ (mem_false_get _ _ Hmem)). cbn.
      repeat split; try discriminate; try reflexivity.
      intros _. eexists. repeat split; reflexivity.
  - intros fields s k. destruct (Dict.mem k (todos s)) eqn:Hmem.
    + destruct (mem_true_get _ _ Hmem) as [t Hget].
      rewrite (update_todo_object _ _ _ _ Hget). cbn.
      repeat split; try discriminate; reflexivity.
    + rewrite (update_todo_absent _ _ _ Hmem). cbn.
      repeat split; try discriminate; try reflexivity.
      intros _. eexists. repeat split; reflexivity.
  - intros s k. destruct (Dict.mem k (todos s)) eqn:Hmem.
    + destruct (mem_true_get _ _ Hmem) as [t Hget].
      rewrite (delete_todo_present _ _ _ Hget). cbn.
      repeat split; try discriminate; reflexivity.
    + rewrite (delete_todo_absent _ _ (mem_false_get _ _ Hmem)). cbn.
      repeat split; try discriminate; try reflexivity.
      intros _. eexists. repeat split; reflexivity.
  - intros p s k Hmem. now apply update_todo_absent.
Qed.

Lemma not_found_exactly_when_absent_witness :
  Dict.mem 9999 (todos (initial_state epoch)) = false /\
  Dict.mem 1 (todos (initial_state epoch)) = true /\
  status_of (get_todo 9999 (initial_state epoch)) = Some 404 /\
  status_of (delete_todo 9999 (initial_state epoch)) = Some 404 /\
  status_of (update_todo 9999 (Parsed (JObj [])) (initial_state epoch)) = Some 404 /\
  status_of (get_todo 1 (initial_state epoch)) = Some 200 /\
  status_of (delete_todo 1 (initial_state epoch)) = Some 200 /\
  status_of (update_todo 1 (Parsed (JObj [])) (initial_state epoch)) = Some 200.
Proof.
  assert (Hno : Dict.mem 9999 (todos (initial_state epoch)) = false) by reflexivity.
  assert (Hyes : Dict.mem 1 (todos (initial_state epoch)) = true) by reflexivity.
  destruct not_found_exactly_when_absent as (Hget & Hupd & Hdel & _).
  split; [exact Hno|]. split; [exact Hyes|].
  split; [exact (proj2 (proj1 (Hget (initial_state epoch) 9999)) Hno)|].
  split; [exact (proj2 (proj1 (Hdel (initial_state epoch) 9999)) Hno)|].
  split; [exact (proj2 (proj1 (Hupd [] (initial_state epoch) 9999)) Hno)|].
  split; [exact (proj2 (proj2 (Hget (initial_state epoch) 1)) Hyes)|].
  split; [exact (proj2 (proj2 (Hdel (initial_state epoch) 1)) Hyes)|].
  exact (proj2 (proj2 (Hupd [] (initial_state epoch) 1)) Hyes).
Defined.

(** C6: for every title string sent as the [title] member of a JSON
    object, [create_todo] answers 201 with a record carrying that title,
    the flag [false], a non-empty [created_at] and the counter's value as
    id, and [get_todo] on that id right afterwards answers 200 with the
    same record. *)
Theorem create_then_get now s fields title :
  lookup "title" fields = Some (JStr title) ->
  let out := create_todo now (Parsed (JObj fields)) s in
  exists t,
    fst out = Return (mkResponse (Json (todo_json t)) 201) /\
    t_title t = JStr title /\
    t_completed t = JBool false /\
    t_created_at t <> "" /\
    t_id t = next_id s /\
    next_id (snd out) = next_id s + 1 /\
    get_todo (t_id t) (snd out) =
      (Return (mkResponse (Json (todo_json t)) 200), snd out).
Proof.
  intros Htitle. cbn zeta. rewrite create_todo_object, Htitle. cbn zeta.
  eexists. split; [reflexivity|]. cbn [t_title t_completed t_created_at t_id snd next_id].
  repeat split.
  - apply isoformat_nonempty.
  - apply get_todo_present. cbn [todos]. apply get_set_same.
Qed.

Lemma create_then_get_witness :
  lookup "title" [("title", JStr "Test Task")] = Some (JStr "Test Task") /\
  exists t,
    fst (create_todo epoch (Parsed (JObj [("title", JStr "Test Task")]))
           (initial_state epoch))
      = Return (mkResponse (Json (todo_json t)) 201) /\
    t_title t = JStr "Test Task" /\
    t_completed t = JBool false /\
    t_created_at t <> "" /\
    t_id t = next_id (initial_state epoch) /\
    next_id (snd (create_todo epoch (Parsed (JObj [("title", JStr "Test Task")]))
                    (initial_state epoch)))
      = next_id (initial_state epoch) + 1 /\
    get_todo (t_id t)
      (snd (create_todo epoch (Parsed (JObj [("title", JStr "Test Task")]))
              (initial_state epoch)))
      = (Return (mkResponse (Json (todo_json t)) 200),
         snd (create_todo epoch (Parsed (JObj [("title", JStr "Test Task")]))
                (initial_state epoch))).
Proof.
  assert (H : lookup "title" [("title", JStr "Test Task")] = Some (JStr "Test Task"))
    by reflexivity.
  split; [exact H|].
  exact (create_then_get epoch (initial_state epoch)
           [("title", JStr "Test Task")] "Test Task" H).
Defined.

(** C7: in an orderly state, for every id in the store, [delete_todo]
    answers 200 with the record that was stored and takes it out of the
    mapping: [get_todo] on the id then answers 404, the list answered by
    [get_todos], which did include the record, no longer does, and every
    other id still maps to the record it mapped to; the counter stays. *)
Theorem delete_removes_record s k t :
  store_ok s ->
  Dict.get k (todos s) = Some t ->
  let out := delete_todo k s in
  fst out = Return (mkResponse (Json (todo_json t)) 200) /\
  Dict.get k (todos (snd out)) = None /\
  get_todo k (snd out) =
    (Return (mkResponse (Json (error_json "Todo not found")) 404), snd out) /\
  get_todos (snd out) =
    (Return (mkResponse
               (Json (JArr (map todo_json (Dict.values (todos (snd out)))))) 200),
     snd out) /\
  In (todo_json t) (map todo_json (Dict.values (todos s))) /\
  ~ In (todo_json t) (map todo_json (Dict.values (todos (snd out)))) /\
  (forall k', k' <> k -> Dict.get k' (todos (snd out)) = Dict.get k' (todos s)) /\
  next_id (snd out) = next_id s.
Proof.
  intros [Hkeys Hids Hfresh] Hget. cbn zeta.
  rewrite (delete_todo_present _ _ _ Hget). cbn [fst snd todos next_id].
  pose proof (get_remove_same (todos s) k Hkeys) as Hgone.
  split; [reflexivity|]. split; [exact Hgone|].
  split; [apply get_todo_absent; exact Hgone|].
  split; [reflexivity|].
  split.
  { apply in_map. unfold Dict.values.
    pose proof (get_in _ _ _ Hget) as Hin0.
    apply (in_map snd) in Hin0. exact Hin0. }
  split.
  { intros Hin. apply in_map_iff in Hin. destruct Hin as (t' & Hjson & Hin).
    apply todo_json_inj in Hjson. subst t'.
    unfold Dict.values in Hin. apply in_map_iff in Hin.
    destruct Hin as ([k' t'] & Heq & Hin). cbn in Heq. subst t'.
    pose proof (in_remove_key _ _ _ _ Hkeys Hin) as Hne.
    apply in_remove in Hin. apply Hids in Hin.
    apply get_in in Hget. apply Hids in Hget. congruence. }
  split; [intros k' Hne; now apply get_remove_other|].
  reflexivity.
Qed.

Lemma delete_removes_record_witness :
  store_ok (initial_state epoch) /\
  Dict.get 1 (todos (initial_state epoch)) = Some first_seed /\
  fst (delete_todo 1 (initial_state epoch))
    = Return (mkResponse (Json (todo_json first_seed)) 200) /\
  Dict.get 1 (todos (snd (delete_todo 1 (initial_state epoch)))) = None.
Proof.
  assert (H : Dict.get 1 (todos (initial_state epoch)) = Some first_seed)
    by reflexivity.
  pose proof (delete_removes_record (initial_state epoch) 1 first_seed
                (store_ok_initial epoch) H) as P.
  cbn zeta in P.
  split; [exact (store_ok_initial epoch)|]. split; [exact H|].
  split; [exact (proj1 P)|]. exact (proj1 (proj2 P)).
Defined.

(** C8, the claim as worded fails twice.  Its own example: a body that
    is not valid JSON makes [get_json] raise [BadRequest], an
    [HTTPException] with code 400 for which no handler is registered, so
    the answer is Flask's 400 page and not the 500 of [server_error], in
    every configuration.  And the way the repository runs the
    application: under [app.run(debug=True)] and under [TESTING] an
    exception that is not an [HTTPException], such as the [TypeError] of
    [update_todo] on the body [null], is re-raised and [server_error] is
    not called. *)
Lemma failures_not_converted_to_500 :
  full_dispatch_request wsgi_config epoch (PUT_todo 1 Malformed) (initial_state epoch)
    = (Answered (mkResponse (ErrorPage 400) 400), initial_state epoch) /\
  full_dispatch_request script_config epoch (PUT_todo 1 Malformed) (initial_state epoch)
    = (Answered (mkResponse (ErrorPage 400) 400), initial_state epoch) /\
  full_dispatch_request test_config epoch (PUT_todo 1 Malformed) (initial_state epoch)
    = (Answered (mkResponse (ErrorPage 400) 400), initial_state epoch) /\
  full_dispatch_request wsgi_config epoch (POST_todos Malformed) (initial_state epoch)
    = (Answered (mkResponse (ErrorPage 400) 400), initial_state epoch) /\
  fst (full_dispatch_request wsgi_config epoch (PUT_todo 1 Malformed)
         (initial_state epoch))
    <> Answered server_error /\
  full_dispatch_request script_config epoch (PUT_todo 1 (Parsed JNull))
    (initial_state epoch) = (Reraised TypeError, initial_state epoch) /\
  full_dispatch_request test_config epoch (PUT_todo 1 (Parsed JNull))
    (initial_state epoch) = (Reraised TypeError, initial_state epoch) /\
  fst (full_dispatch_request script_config epoch (PUT_todo 1 (Parsed JNull))
         (initial_state epoch))
    <> Answered server_error.
Proof. repeat split; try reflexivity; discriminate. Qed.

(** C8, amended: when the view returns, its response is the answer.
    When an [HTTPException] leaves the view the globals are as before the
    request and the answer is the same in every configuration: 400 for
    the [BadRequest] of [get_json] on a body that does not parse, 405 for
    a method the route does not list, and [not_found]'s 404 for an
    unmatched route.  When any other exception leaves the view, such as
    the [TypeError] raised by [update_todo] on the body [null], the
    globals are as before the request, and what follows depends on the
    configuration: with exception propagation off (neither debug nor
    [TESTING], an [app] imported by a WSGI server) the answer is
    [server_error]'s 500 with the body
    [{"error": "Internal server error"}]; with debug on (as
    [app.run(debug=True)] starts it) or [TESTING] on (as the tests set
    it) the exception is re-raised and [server_error] is not called. *)
Theorem exception_handling_by_configuration :
  (forall c now r s,
     match dispatch_request now r s with
     | (Return resp, s') => full_dispatch_request c now r s = (Answered resp, s')
     | (Raise (HTTPException code), s') =>
         s' = s /\
         ((code = 400 /\ carries_malformed r = true /\
           full_dispatch_request c now r s
             = (Answered (mkResponse (ErrorPage 400) 400), s)) \/
          (code = 405 /\ r = Wrong_method /\
           full_dispatch_request c now r s
             = (Answered (mkResponse (ErrorPage 405) 405), s)) \/
          (code = 404 /\ r = Unmatched /\
           full_dispatch_request c now r s = (Answered not_found, s)))
     | (Raise e, s') =>
         s' = s /\
         (propagate_exceptions c = false ->
          full_dispatch_request c now r s = (Answered server_error, s)) /\
         (propagate_exceptions c = true ->
          full_dispatch_request c now r s = (Reraised e, s))
     end) /\
  (forall c, propagate_exceptions c = false <-> debug c = false /\ testing c = false) /\
  propagate_exceptions wsgi_config = false /\
  propagate_exceptions script_config = true /\
  propagate_exceptions test_config = true /\
  (forall c boot now,
     dispatch_request now (PUT_todo 1 (Parsed JNull)) (initial_state boot)
       = (Raise TypeError, initial_state boot) /\
     (propagate_exceptions c = false ->
      full_dispatch_request c now (PUT_todo 1 (Parsed JNull)) (initial_state boot)
        = (Answered server_error, initial_state boot)) /\
     (propagate_exceptions c = true ->
      full_dispatch_request c now (PUT_todo 1 (Parsed JNull)) (initial_state boot)
        = (Reraised TypeError, initial_state boot))) /\
  server_error = mkResponse (Json (JObj [("error", JStr "Internal server error")])) 500.
Proof.
  split; [|split].
  - intros c now r s. unfold full_dispatch_request.
    destruct (dispatch_request now r s) as [[resp|e] s'] eqn:Hd; [reflexivity|].
    destruct (dispatch_raise _ _ _ _ _ Hd) as [-> Hc].
    destruct Hc as [->|[[-> Hm]|[[-> ->]|[-> ->]]]].
    + split; [reflexivity|]. unfold handle_user_exception, handle_exception.
      split; intros ->; reflexivity.
    + split; [reflexivity|]. left. repeat split; assumption || reflexivity.
    + split; [reflexivity|]. right. left. repeat split; reflexivity.
    + split; [reflexivity|]. right. right. repeat split; reflexivity.
  - intros c. unfold propagate_exceptions. destruct (testing c), (debug c); cbn;
      intuition discriminate.
  - split; [reflexivity|]. split; [reflexivity|]. split; [reflexivity|].
    split; [|reflexivity].
    intros c boot now.
    assert (Hraise : dispatch_request now (PUT_todo 1 (Parsed JNull))
                       (initial_state boot) = (Raise TypeError, initial_state boot))
      by reflexivity.
    split; [exact Hraise|].
    unfold full_dispatch_request. rewrite Hraise.
    unfold handle_user_exception, handle_exception.
    split; intros ->; reflexivity.
Qed.

Lemma exception_handling_by_configuration_witness :
  propagate_exceptions wsgi_config = false /\
  propagate_exceptions script_config = true /\
  full_dispatch_request wsgi_config epoch (PUT_todo 1 (Parsed JNull))
    (initial_state epoch) = (Answered server_error, initial_state epoch) /\
  full_dispatch_request script_config epoch (PUT_todo 1 (Parsed JNull))
    (initial_state epoch) = (Reraised TypeError, initial_state epoch).
Proof.
  assert (Hoff : propagate_exceptions wsgi_config = false) by reflexivity.
  assert (Hon : propagate_exceptions script_config = true) by reflexivity.
  pose proof (proj1 exception_handling_by_configuration wsgi_config epoch
                (PUT_todo 1 (Parsed JNull)) (initial_state epoch)) as Poff.
  pose proof (proj1 exception_handling_by_configuration script_config epoch
                (PUT_todo 1 (Parsed JNull)) (initial_state epoch)) as Pon.
  change (dispatch_request epoch (PUT_todo 1 (Parsed JNull)) (initial_state epoch))
    with (@Raise response TypeError, initial_state epoch) in Poff, Pon.
  cbn iota in Poff, Pon.
  split; [exact Hoff|]. split; [exact Hon|].
  split; [exact (proj1 (proj2 Poff) Hoff) | exact (proj2 (proj2 Pon) Hon)].
Defined.

(** C9: for every id in the store and every JSON value [v], boolean or
    not, [update_todo] with the body [{"completed": v}] answers 200 and
    the record stored under the id afterwards has [v] itself as its
    [completed] value, the other fields being as before. *)
Theorem update_stores_any_completed_value s k t v :
  Dict.get k (todos s) = Some t ->
  let out := update_todo k (Parsed (JObj [("completed", v)])) s in
  fst out = Return (mkResponse (Json (todo_json (set_completed v t))) 200) /\
  status_of out = Some 200 /\
  Dict.get k (todos (snd out)) = Some (set_completed v t) /\
  t_completed (set_completed v t) = v /\
  set_completed v t = mkTodo (t_id t) (t_title t) v (t_created_at t).
Proof.
  intros Hget. cbn zeta. rewrite (update_todo_object _ _ _ _ Hget).
  cbn [lookup String.eqb Ascii.eqb Bool.eqb fst snd todos].
  unfold apply_fields. cbn [lookup String.eqb Ascii.eqb Bool.eqb].
  rewrite get_update_same, Hget.
  repeat split.
Qed.

Lemma update_stores_any_completed_value_witness :
  Dict.get 1 (todos (initial_state epoch)) = Some first_seed /\
  fst (update_todo 1 (Parsed (JObj [("completed", JStr "yes")])) (initial_state epoch))
    = Return (mkResponse (Json (todo_json (set_completed (JStr "yes") first_seed))) 200) /\
  Dict.get 1 (todos (snd (update_todo 1 (Parsed (JObj [("completed", JStr "yes")]))
                            (initial_state epoch))))
    = Some (set_completed (JStr "yes") first_seed).
Proof.
  assert (H : Dict.get 1 (todos (initial_state epoch)) = Some first_seed)
    by reflexivity.
  pose proof (update_stores_any_completed_value (initial_state epoch) 1 first_seed
                (JStr "yes") H) as P.
  cbn zeta in P.
  split; [exact H|]. split; [exact (proj1 P)|].
  exact (proj1 (proj2 (proj2 P))).
Defined.

(** C10: for every id in the store, [update_todo] with a JSON object
    that has neither a [title] nor a [completed] member, such as [{}],
    answers 200 with the record as it is stored and leaves the globals
    exactly as they were. *)
Theorem update_without_fields_is_noop s k t fields :
  Dict.get k (todos s) = Some t ->
  lookup "title" fields = None ->
  lookup "completed" fields = None ->
  update_todo k (Parsed (JObj fields)) s =
  (Return (mkResponse (Json (todo_json t)) 200), s).
Proof.
  intros Hget Ht Hc. rewrite (update_todo_object _ _ _ _ Hget).
  unfold apply_fields. rewrite Ht, Hc. rewrite state_eta.
  destruct t; reflexivity.
Qed.

Lemma update_without_fields_is_noop_witness :
  Dict.get 1 (todos (initial_state epoch)) = Some first_seed /\
  lookup "title" [] = None /\
  lookup "completed" [] = None /\
  update_todo 1 (Parsed (JObj [])) (initial_state epoch) =
  (Return (mkResponse (Json (todo_json first_seed)) 200), initial_state epoch).
Proof.
  assert (H : Dict.get 1 (todos (initial_state epoch)) = Some first_seed)
    by reflexivity.
  split; [exact H|]. split; [reflexivity|]. split; [reflexivity|].
  exact (update_without_fields_is_noop (initial_state epoch) 1 first_seed []
           H eq_refl eq_refl).
Defined.

(* ================================================================== *)
(** ** Further properties of the views *)

(** *** More on dictionaries *)

Lemma values_set_fresh {V} (d : list (Z * V)) k v :
  Dict.get k d = None -> Dict.values (Dict.set k v d) = (Dict.values d ++ [v])%list.
Proof.
  unfold Dict.values. induction d as [|[k0 v0] d IH]; cbn; [reflexivity|].
  destruct (k0 =? k); [discriminate|]. intros H. cbn. now rewrite IH.
Qed.

Lemma remove_set_fresh {V} (d : list (Z * V)) k v :
  Dict.get k d = None -> Dict.remove k (Dict.set k v d) = d.
Proof.
  induction d as [|[k0 v0] d IH]; cbn.
  - now rewrite Z.eqb_refl.
  - destruct (k0 =? k) eqn:E; [discriminate|]. intros H. cbn. rewrite E.
    now rewrite IH.
Qed.

Lemma remove_splits {V} (d : list (Z * V)) k v :
  Dict.get k d = Some v ->
  exists d1 d2,
    d = (d1 ++ (k, v) :: d2)%list /\ Dict.remove k d = (d1 ++ d2)%list /\
    Dict.get k d1 = None.
Proof.
  induction d as [|[k0 v0] d IH]; cbn; [discriminate|].
  destruct (k0 =? k) eqn:E.
  - apply Z.eqb_eq in E. subst k0. intros [= ->].
    exists [], d. repeat split.
  - intros H. destruct (IH H) as (d1 & d2 & -> & Hrm & Hd1).
    exists ((k0, v0) :: d1), d2. cbn. rewrite Hrm, E. repeat split. exact Hd1.
Qed.

Lemma update_splits {V} (d : list (Z * V)) k f v :
  Dict.get k d = Some v ->
  exists d1 d2,
    d = (d1 ++ (k, v) :: d2)%list /\
    Dict.update k f d = (d1 ++ (k, f v) :: d2)%list.
Proof.
  induction d as [|[k0 v0] d IH]; cbn; [discriminate|].
  destruct (k0 =? k) eqn:E.
  - apply Z.eqb_eq in E. subst k0. intros [= ->].
    exists [], d. repeat split.
  - intros H. destruct (IH H) as (d1 & d2 & -> & Hup).
    exists ((k0, v0) :: d1), d2. cbn. rewrite Hup. repeat split.
Qed.

Lemma update_update {V} (d : list (Z * V)) k f g :
  Dict.update k g (Dict.update k f d) = Dict.update k (fun v => g (f v)) d.
Proof.
  induction d as [|[k0 v0] d IH]; cbn; [reflexivity|].
  destruct (k0 =? k) eqn:E; cbn; rewrite E; [reflexivity | now rewrite IH].
Qed.

Lemma update_ext {V} (d : list (Z * V)) k f g :
  (forall v, f v = g v) -> Dict.update k f d = Dict.update k g d.
Proof.
  intros H. induction d as [|[k0 v0] d IH]; cbn; [reflexivity|].
  destruct (k0 =? k); [now rewrite H | now rewrite IH].
Qed.

Lemma shape_length d d' : shape d' = shape d -> List.length d' = List.length d.
Proof.
  intros H. apply (f_equal (@List.length _)) in H.
  unfold shape in H. now rewrite !length_map in H.
Qed.

Lemma shape_ids d d' :
  shape d' = shape d -> map t_id (Dict.values d') = map t_id (Dict.values d).
Proof.
  intros H. apply (f_equal (map snd)) in H. unfold shape in H.
  rewrite !map_map in H. cbn in H. unfold Dict.values. now rewrite !map_map.
Qed.

(** *** What a POST and a PUT are answered, by kind of body *)

Lemma post_outcome c now p s :
  full_dispatch_request c now (POST_todos p) s =
  match p with
  | Malformed => (Answered (mkResponse (ErrorPage 400) 400), s)
  | Parsed data =>
      if negb (truthy data)
      then (Answered (mkResponse (Json (error_json "Title is required")) 400), s)
      else
        match data with
        | JObj fields =>
            match lookup "title" fields with
            | Some x =>
                let t := mkTodo (next_id s) x (JBool false) (isoformat now) in
                (Answered (mkResponse (Json (todo_json t)) 201),
                 mkState (Dict.set (next_id s) t (todos s)) (next_id s + 1))
            | None =>
                (Answered (mkResponse (Json (error_json "Title is required")) 400), s)
            end
        | JArr _ | JStr _ =>
            if mentions "title" data then (handle_exception c TypeError, s)
            else (Answered (mkResponse (Json (error_json "Title is required")) 400), s)
        | _ => (handle_exception c TypeError, s)
        end
  end.
Proof.
  unfold full_dispatch_request. cbn [dispatch_request].
  destruct p as [|data]; [reflexivity|].
  destruct data as [| b | n | x | str | items | fields].
  - reflexivity.
  - destruct b; reflexivity.
  - run_view. cbn [truthy]. destruct (negb (n =? 0)); reflexivity.
  - destruct x; reflexivity.
  - run_view. unfold mentions. cbn [truthy contains getitem].
    destruct (negb (String.eqb str "")); cbn [negb]; [|reflexivity].
    destruct (String.index 0 "title" str); reflexivity.
  - run_view. unfold mentions. cbn [truthy contains getitem].
    destruct items as [|i0 items]; cbn [negb]; [reflexivity|].
    destruct (existsb (str_eq "title") (i0 :: items)); reflexivity.
  - rewrite create_todo_object. destruct fields as [|[k0 v0] rest]; [reflexivity|].
    cbn [truthy negb]. destruct (lookup "title" ((k0, v0) :: rest)); reflexivity.
Qed.

Lemma put_outcome c now k p s t :
  Dict.get k (todos s) = Some t ->
  full_dispatch_request c now (PUT_todo k p) s =
  match p with
  | Malformed => (Answered (mkResponse (ErrorPage 400) 400), s)
  | Parsed (JObj fields) =>
      (Answered (mkResponse (Json (todo_json (apply_fields fields t))) 200),
       snd (update_todo k (Parsed (JObj fields)) s))
  | Parsed data =>
      if is_sequence data
      then if mentions "title" data || mentions "completed" data
           then (handle_exception c TypeError, s)
           else (Answered (mkResponse (Json (todo_json t)) 200), s)
      else (handle_exception c TypeError, s)
  end.
Proof.
  intros Hget. unfold full_dispatch_request. cbn [dispatch_request].
  assert (Hmem : Dict.mem k (todos s) = true) by (unfold Dict.mem; now rewrite Hget).
  destruct p as [|data].
  { run_view. rewrite Hmem. reflexivity. }
  destruct data as [| b | n | x | str | items | fields].
  1-4: run_view; rewrite Hmem; reflexivity.
  - run_view. rewrite Hmem. unfold mentions. cbn [negb contains getitem is_sequence].
    destruct (String.index 0 "title" str); cbn [orb fst snd todos next_id];
      [reflexivity|].
    destruct (String.index 0 "completed" str); cbn [orb fst snd todos next_id];
      [reflexivity|].
    rewrite Hget. reflexivity.
  - run_view. rewrite Hmem. unfold mentions. cbn [negb contains getitem is_sequence].
    destruct (existsb (str_eq "title") items); cbn [orb fst snd todos next_id];
      [reflexivity|].
    destruct (existsb (str_eq "completed") items); cbn [orb fst snd todos next_id];
      [reflexivity|].
    rewrite Hget. reflexivity.
  - rewrite (update_todo_object _ _ _ _ Hget). reflexivity.
Qed.

Lemma put_absent c now k p s :
  Dict.get k (todos s) = None ->
  full_dispatch_request c now (PUT_todo k p) s =
  (Answered (mkResponse (Json (error_json "Todo not found")) 404), s).
Proof.
  intros Hget. unfold full_dispatch_request. cbn [dispatch_request].
  rewrite update_todo_absent; [reflexivity|].
  unfold Dict.mem. now rewrite Hget.
Qed.

Lemma read_outcome c now r s :
  is_read r = true ->
  full_dispatch_request c now r s =
  (Answered
     match r with
     | GET_index => mkResponse (Template "index.html" (listing s)) 200
     | GET_health =>
         mkResponse
           (Json (JObj [ ("status", JStr "healthy"); ("version", JStr "1.0.0") ])) 200
     | GET_todos => mkResponse (Json (JArr (map todo_json (listing s)))) 200
     | GET_stats => mkResponse (Json (stats_json s)) 200
     | GET_todo k =>
         match Dict.get k (todos s) with
         | Some t => mkResponse (Json (todo_json t)) 200
         | None => mkResponse (Json (error_json "Todo not found")) 404
         end
     | _ => not_found
     end, s).
Proof.
  unfold full_dispatch_request.
  destruct r as [| | | | p | k | k p | k | |]; cbn [is_read dispatch_request];
    try discriminate; intros _.
  - reflexivity.
  - reflexivity.
  - reflexivity.
  - rewrite get_stats_eq. reflexivity.
  - run_view. destruct (Dict.get k (todos s)); reflexivity.
Qed.

Lemma delete_outcome c now k s :
  full_dispatch_request c now (DELETE_todo k) s =
  match Dict.get k (todos s) with
  | Some t => (Answered (mkResponse (Json (todo_json t)) 200),
               mkState (Dict.remove k (todos s)) (next_id s))
  | None => (Answered (mkResponse (Json (error_json "Todo not found")) 404), s)
  end.
Proof.
  unfold full_dispatch_request. cbn [dispatch_request].
  destruct (Dict.get k (todos s)) as [t|] eqn:Hget.
  - now rewrite (delete_todo_present _ _ _ Hget).
  - now rewrite (delete_todo_absent _ _ Hget).
Qed.

Lemma create_todo_non_object now data s :
  (forall fields, data <> JObj fields) ->
  create_todo now (Parsed data) s =
  if negb (truthy data)
  then (Return (mkResponse (Json (error_json "Title is required")) 400), s)
  else if is_sequence data
       then if mentions "title" data then (Raise TypeError, s)
            else (Return (mkResponse (Json (error_json "Title is required")) 400), s)
       else (Raise TypeError, s).
Proof.
  intros Hobj. destruct data as [| b | n | x | str | items | fields].
  - reflexivity.
  - destruct b; reflexivity.
  - run_view. cbn [truthy is_sequence]. destruct (negb (n =? 0)); reflexivity.
  - destruct x; reflexivity.
  - run_view. unfold mentions. cbn [truthy contains getitem is_sequence].
    destruct (negb (String.eqb str "")); cbn [negb]; [|reflexivity].
    destruct (String.index 0 "title" str); reflexivity.
  - run_view. unfold mentions. cbn [truthy contains getitem is_sequence].
    destruct items as [|i0 items]; cbn [negb]; [reflexivity|].
    destruct (existsb (str_eq "title") (i0 :: items)); reflexivity.
  - exfalso. now apply (Hobj fields).
Qed.

Lemma update_todo_non_object k t data s :
  Dict.get k (todos s) = Some t ->
  (forall fields, data <> JObj fields) ->
  update_todo k (Parsed data) s =
  if is_sequence data
  then if mentions "title" data || mentions "completed" data
       then (Raise TypeError, s)
       else (Return (mkResponse (Json (todo_json t)) 200), s)
  else (Raise TypeError, s).
Proof.
  intros Hget Hobj.
  assert (Hmem : Dict.mem k (todos s) = true) by (unfold Dict.mem; now rewrite Hget).
  destruct data as [| b | n | x | str | items | fields].
  1-4: run_view; rewrite Hmem; reflexivity.
  - run_view. rewrite Hmem. unfold mentions. cbn [negb contains getitem is_sequence].
    destruct (String.index 0 "title" str); cbn [orb fst snd todos next_id];
      [reflexivity|].
    destruct (String.index 0 "completed" str); cbn [orb fst snd todos next_id];
      [reflexivity|].
    rewrite Hget. reflexivity.
  - run_view. rewrite Hmem. unfold mentions. cbn [negb contains getitem is_sequence].
    destruct (existsb (str_eq "title") items); cbn [orb fst snd todos next_id];
      [reflexivity|].
    destruct (existsb (str_eq "completed") items); cbn [orb fst snd todos next_id];
      [reflexivity|].
    rewrite Hget. reflexivity.
  - exfalso. now apply (Hobj fields).
Qed.

Lemma type_error_ends c view s :
  view = (Raise TypeError, s) ->
  ends_in_type_error c view s (handle_exception c TypeError).
Proof.
  intros ->. unfold ends_in_type_error, handle_exception.
  split; [reflexivity|]. split; intros ->; reflexivity.
Qed.

(** X1: the reading views ([index], [health], [get_todos], [get_stats],
    [get_todo]) never write the globals and never raise: in every
    configuration, after any sequence of them the globals are what they
    were, each was answered 200 or 404, and a reading request gets the
    same response after the sequence as before it, whatever the clock
    shows and whatever the configuration. *)
Theorem reads_leave_globals_and_repeat c reqs s :
  Forall (fun nr => is_read (snd nr) = true) reqs ->
  snd (serve c reqs s) = s /\
  Forall (fun ev => answer_status (snd ev) = Some 200 \/
                    answer_status (snd ev) = Some 404)
         (fst (serve c reqs s)) /\
  (forall c' now now' r,
     is_read r = true ->
     full_dispatch_request c' now' r (snd (serve c reqs s)) =
     full_dispatch_request c now r s).
Proof.
  intros Hall.
  assert (Hrun : snd (serve c reqs s) = s /\
                 Forall (fun ev => answer_status (snd ev) = Some 200 \/
                                   answer_status (snd ev) = Some 404)
                        (fst (serve c reqs s))).
  { induction Hall as [|[now r] reqs Hr Hall IH]; [split; [reflexivity|constructor]|].
    cbn [snd] in Hr. rewrite serve_cons. cbn [fst snd].
    rewrite (read_outcome c now r s Hr). cbn [fst snd].
    destruct IH as [IHs IHl]. split; [exact IHs|]. constructor; [|exact IHl].
    cbn [snd answer_status].
    destruct r; try discriminate; cbn; auto.
    destruct (Dict.get todo_id (todos s)); cbn; auto. }
  destruct Hrun as [Hs Hl]. split; [exact Hs|]. split; [exact Hl|].
  intros c' now now' r Hr. rewrite Hs, !(read_outcome _ _ r s Hr). reflexivity.
Qed.

Lemma reads_leave_globals_and_repeat_witness :
  Forall (fun nr => is_read (snd nr) = true)
         [(epoch, GET_todo 1); (epoch, GET_stats); (epoch, GET_todo 9999)] /\
  snd (serve test_config
         [(epoch, GET_todo 1); (epoch, GET_stats); (epoch, GET_todo 9999)]
         (initial_state epoch)) = initial_state epoch.
Proof.
  assert (H : Forall (fun nr => is_read (snd nr) = true)
                [(epoch, GET_todo 1); (epoch, GET_stats); (epoch, GET_todo 9999)])
    by (repeat constructor).
  split; [exact H|].
  exact (proj1 (reads_leave_globals_and_repeat test_config _ (initial_state epoch) H)).
Defined.

(** X2: a request that fails, whether it is answered with an error
    status (400 or above: the 400 of a missing title or an unparsable
    body, the 404 of an unknown id or route, the 405 of a wrong method,
    the 500 of an exception in a view) or its exception is re-raised,
    leaves the globals exactly as they were, in every configuration; in
    particular an update that fails has written nothing. *)
Theorem errors_leave_globals c now r s :
  failed (fst (full_dispatch_request c now r s)) = true ->
  snd (full_dispatch_request c now r s) = s.
Proof.
  assert (Hte : snd (handle_exception c TypeError, s) = s) by reflexivity.
  destruct r as [| | | | p | k | k p | k | |].
  1-4: intros _; now rewrite read_outcome.
  - rewrite post_outcome. destruct p as [|data]; [reflexivity|].
    destruct (negb (truthy data)); [reflexivity|].
    destruct data as [| b | n | x | str | items | fields]; try reflexivity.
    + destruct (mentions "title" (JStr str)); reflexivity.
    + destruct (mentions "title" (JArr items)); reflexivity.
    + destruct (lookup "title" fields); [|reflexivity]. cbn. discriminate.
  - intros _; now rewrite read_outcome.
  - destruct (Dict.get k (todos s)) as [t|] eqn:Hget.
    + rewrite (put_outcome _ _ _ _ _ _ Hget). destruct p as [|data]; [reflexivity|].
      destruct data as [| b | n | x | str | items | fields]; try reflexivity.
      * cbn [is_sequence].
        destruct (mentions "title" (JStr str) || mentions "completed" (JStr str));
          reflexivity.
      * cbn [is_sequence].
        destruct (mentions "title" (JArr items) || mentions "completed" (JArr items));
          reflexivity.
      * cbn. discriminate.
    + now rewrite (put_absent _ _ _ _ _ Hget).
  - rewrite delete_outcome. destruct (Dict.get k (todos s));
      [cbn; discriminate | reflexivity].
  - reflexivity.
  - reflexivity.
Qed.

Lemma errors_leave_globals_witness :
  failed (fst (full_dispatch_request script_config epoch (PUT_todo 1 (Parsed (JInt 7)))
                 (initial_state epoch))) = true /\
  snd (full_dispatch_request script_config epoch (PUT_todo 1 (Parsed (JInt 7)))
         (initial_state epoch)) = initial_state epoch.
Proof.
  assert (H : failed (fst (full_dispatch_request script_config epoch
                             (PUT_todo 1 (Parsed (JInt 7)))
                             (initial_state epoch))) = true)
    by reflexivity.
  split; [exact H|].
  exact (errors_leave_globals script_config epoch (PUT_todo 1 (Parsed (JInt 7)))
           (initial_state epoch) H).
Defined.

(** X3: a POST is answered 201 exactly when its body is a JSON object
    with a [title] member, in every configuration; the member's value,
    of whatever JSON type (also [null] or the empty string), is stored
    verbatim under the counter's value.  Every other body changes
    nothing.  It is answered 400 when it is false in Python's sense
    ([null], [false], 0, the empty string, array or object) or is a
    non-empty string, array or object in which [title] does not occur.
    When it is a non-zero number or [true], or a string or array in which
    [title] occurs, [create_todo] raises [TypeError]; that request is
    answered 500 by [server_error] when exceptions do not propagate and
    ends in the re-raised [TypeError] under debug or [TESTING]. *)
Theorem create_succeeds_iff_object_with_title c now p s :
  let out := full_dispatch_request c now (POST_todos p) s in
  let rejected := Answered (mkResponse (Json (error_json "Title is required")) 400) in
  let raises := ends_in_type_error c (create_todo now p s) s (fst out) in
  (answer_status (fst out) = Some 201 <->
   exists fields x, p = Parsed (JObj fields) /\ lookup "title" fields = Some x) /\
  (forall fields x,
     p = Parsed (JObj fields) -> lookup "title" fields = Some x ->
     let t := mkTodo (next_id s) x (JBool false) (isoformat now) in
     fst out = Answered (mkResponse (Json (todo_json t)) 201) /\
     Dict.get (next_id s) (todos (snd out)) = Some t /\
     t_title t = x) /\
  (answer_status (fst out) <> Some 201 ->
   snd out = s /\
   (fst out = rejected \/ raises \/
    (p = Malformed /\ fst out = Answered (mkResponse (ErrorPage 400) 400)))) /\
  (forall data, p = Parsed data -> truthy data = false -> fst out = rejected) /\
  (forall data,
     p = Parsed data -> truthy data = true -> is_scalar data = true -> raises) /\
  (forall data,
     p = Parsed data -> truthy data = true -> is_sequence data = true ->
     if mentions "title" data then raises else fst out = rejected).
Proof.
  cbn zeta.
  assert (Hnonobj : forall data,
            p = Parsed data -> truthy data = true ->
            (forall fields, data <> JObj fields) ->
            (is_sequence data = false \/ mentions "title" data = true) ->
            ends_in_type_error c (create_todo now p s) s
              (fst (full_dispatch_request c now (POST_todos p) s))).
  { intros data -> Ht Hobj Hcase.
    assert (Hview : create_todo now (Parsed data) s = (Raise TypeError, s)).
    { rewrite (create_todo_non_object _ _ _ Hobj), Ht. cbn [negb].
      destruct Hcase as [-> | Hm]; [reflexivity|].
      rewrite Hm. destruct (is_sequence data); reflexivity. }
    unfold full_dispatch_request. cbn [dispatch_request]. rewrite Hview.
    cbn [fst handle_user_exception]. now apply type_error_ends. }
  split; [|split; [|split; [|split; [|split]]]].
  - rewrite post_outcome. split.
    + destruct p as [|data]; [cbn; discriminate|].
      destruct (negb (truthy data)); [cbn; discriminate|].
      destruct data as [| b | n | x | str | items | fields];
        try (unfold handle_exception; destruct (propagate_exceptions c);
             cbn; discriminate).
      * destruct (mentions "title" (JStr str)); [|cbn; discriminate].
        unfold handle_exception; destruct (propagate_exceptions c); cbn; discriminate.
      * destruct (mentions "title" (JArr items)); [|cbn; discriminate].
        unfold handle_exception; destruct (propagate_exceptions c); cbn; discriminate.
      * destruct (lookup "title" fields) as [x|] eqn:Hx; [|cbn; discriminate].
        intros _. eauto.
    + intros (fields & x & -> & Hx).
      destruct fields as [|[k0 v0] rest]; [discriminate|].
      cbn [truthy negb]. rewrite Hx. reflexivity.
  - rewrite post_outcome. intros fields x -> Hx.
    destruct fields as [|[k0 v0] rest]; [discriminate|].
    cbn [truthy negb]. rewrite Hx. cbn [fst snd todos].
    repeat split. apply get_set_same.
  - intros Hnot.
    destruct p as [|data].
    { rewrite post_outcome. split; [reflexivity|]. right; right. split; reflexivity. }
    destruct (truthy data) eqn:Ht.
    2:{ rewrite post_outcome, Ht. cbn [negb]. split; [reflexivity | left; reflexivity]. }
    assert (Hraise : (forall fields, data <> JObj fields) ->
                     (is_sequence data = false \/ mentions "title" data = true) ->
                     snd (full_dispatch_request c now (POST_todos (Parsed data)) s) = s /\
                     ends_in_type_error c (create_todo now (Parsed data) s) s
                       (fst (full_dispatch_request c now (POST_todos (Parsed data)) s))).
    { intros Hobj Hcase. split; [|now apply (Hnonobj data eq_refl Ht Hobj Hcase)].
      apply errors_leave_globals.
      destruct (Hnonobj data eq_refl Ht Hobj Hcase) as (_ & Hoff & Hon).
      destruct (propagate_exceptions c);
        [rewrite (Hon eq_refl) | rewrite (Hoff eq_refl)]; reflexivity. }
    destruct data as [| b | n | x | str | items | fields].
    1-4: (destruct Hraise as [Hs Hr];
          [intros fields; discriminate | left; reflexivity | split; [exact Hs | auto]]).
    + destruct (mentions "title" (JStr str)) eqn:Hm.
      * destruct Hraise as [Hs Hr];
          [intros fields; discriminate | now right | split; [exact Hs | auto]].
      * rewrite post_outcome, Ht, Hm. cbn [negb].
        split; [reflexivity | left; reflexivity].
    + destruct (mentions "title" (JArr items)) eqn:Hm.
      * destruct Hraise as [Hs Hr];
          [intros fields; discriminate | now right | split; [exact Hs | auto]].
      * rewrite post_outcome, Ht, Hm. cbn [negb].
        split; [reflexivity | left; reflexivity].
    + clear Hraise. revert Hnot. rewrite post_outcome, Ht. cbn [negb].
      destruct (lookup "title" fields);
        [cbn; congruence | intros _; split; [reflexivity | left; reflexivity]].
  - rewrite post_outcome. intros data -> Hf. rewrite Hf. reflexivity.
  - intros data Hp Ht Hs. apply (Hnonobj data Hp Ht).
    + intros fields ->. discriminate.
    + left. destruct data; try discriminate; reflexivity.
  - intros data Hp Ht Hs.
    destruct (mentions "title" data) eqn:Hm.
    + apply (Hnonobj data Hp Ht); [intros fields ->; discriminate | now right].
    + subst p. rewrite post_outcome, Ht. cbn [negb].
      destruct data as [| b | n | x | str | items | fields]; try discriminate;
        rewrite Hm; reflexivity.
Qed.

Lemma create_succeeds_iff_object_with_title_witness :
  truthy (JInt 5) = true /\ is_scalar (JInt 5) = true /\
  ends_in_type_error script_config
    (create_todo epoch (Parsed (JInt 5)) (initial_state epoch)) (initial_state epoch)
    (fst (full_dispatch_request script_config epoch (POST_todos (Parsed (JInt 5)))
            (initial_state epoch))).
Proof.
  split; [reflexivity|]. split; [reflexivity|].
  exact (proj1 (proj2 (proj2 (proj2 (proj2
           (create_succeeds_iff_object_with_title script_config epoch
              (Parsed (JInt 5)) (initial_state epoch))))))
           (JInt 5) eq_refl eq_refl eq_refl).
Defined.

(** X4: a PUT on an id that is in the store whose body is not a JSON
    object never changes the globals.  On [null], a boolean or a number,
    and on a string or an array in which [title] or [completed] occurs
    (as a substring, as an element), [update_todo] raises [TypeError];
    that request is answered 500 by [server_error] when exceptions do not
    propagate and ends in the re-raised [TypeError] under debug or
    [TESTING].  A string or an array in which neither occurs is accepted:
    the answer is 200 with the stored record, in every configuration. *)
Theorem update_non_object_body c now k t data s :
  Dict.get k (todos s) = Some t ->
  (forall fields, data <> JObj fields) ->
  let out := full_dispatch_request c now (PUT_todo k (Parsed data)) s in
  let raises :=
    ends_in_type_error c (update_todo k (Parsed data) s) s (fst out) in
  snd out = s /\
  (is_scalar data = true -> raises) /\
  (is_sequence data = true ->
   if mentions "title" data || mentions "completed" data
   then raises
   else update_todo k (Parsed data) s
          = (Return (mkResponse (Json (todo_json t)) 200), s) /\
        fst out = Answered (mkResponse (Json (todo_json t)) 200)).
Proof.
  intros Hget Hobj. cbn zeta.
  pose proof (update_todo_non_object k t data s Hget Hobj) as Hview.
  unfold full_dispatch_request. cbn [dispatch_request]. rewrite Hview.
  destruct (is_sequence data) eqn:Hseq.
  - destruct (mentions "title" data || mentions "completed" data).
    + cbn [fst snd handle_user_exception]. split; [reflexivity|].
      split; [destruct data; discriminate|].
      intros _. now apply type_error_ends.
    + cbn [fst snd]. split; [reflexivity|].
      split; [destruct data; discriminate|].
      intros _. split; reflexivity.
  - cbn [fst snd handle_user_exception]. split; [reflexivity|].
    split; [|discriminate]. intros _. now apply type_error_ends.
Qed.

Lemma update_non_object_body_witness :
  Dict.get 1 (todos (initial_state epoch)) = Some first_seed /\
  (forall fields, JArr [JStr "completed"] <> JObj fields) /\
  is_sequence (JArr [JStr "completed"]) = true /\
  ends_in_type_error test_config
    (update_todo 1 (Parsed (JArr [JStr "completed"])) (initial_state epoch))
    (initial_state epoch)
    (fst (full_dispatch_request test_config epoch
            (PUT_todo 1 (Parsed (JArr [JStr "completed"]))) (initial_state epoch))) /\
  fst (full_dispatch_request test_config epoch (PUT_todo 1 (Parsed (JStr "done")))
         (initial_state epoch))
    = Answered (mkResponse (Json (todo_json first_seed)) 200).
Proof.
  assert (H : Dict.get 1 (todos (initial_state epoch)) = Some first_seed)
    by reflexivity.
  assert (Ha : forall fields, JArr [JStr "completed"] <> JObj fields)
    by (intros fields; discriminate).
  assert (Hs : forall fields, JStr "done" <> JObj fields)
    by (intros fields; discriminate).
  pose proof (update_non_object_body test_config epoch 1 first_seed
                (JArr [JStr "completed"]) (initial_state epoch) H Ha) as Pa.
  pose proof (update_non_object_body test_config epoch 1 first_seed (JStr "done")
                (initial_state epoch) H Hs) as Ps.
  cbn zeta in Pa, Ps.
  destruct Pa as (_ & _ & Pa3). destruct Ps as (_ & _ & Ps3).
  split; [exact H|]. split; [exact Ha|]. split; [reflexivity|].
  split; [exact (Pa3 eq_refl) | exact (proj2 (Ps3 eq_refl))].
Defined.

(** X5: [update_todo] is idempotent on JSON objects: sending the same
    object to the same id a second time gives the same answer and leaves
    the globals as the first time left them, whether or not the id is in
    the store. *)
Theorem update_twice_same_as_once k fields s :
  update_todo k (Parsed (JObj fields))
              (snd (update_todo k (Parsed (JObj fields)) s)) =
  update_todo k (Parsed (JObj fields)) s.
Proof.
  destruct (Dict.get k (todos s)) as [t|] eqn:Hget.
  2:{ assert (Hmem : Dict.mem k (todos s) = false)
        by (unfold Dict.mem; now rewrite Hget).
      rewrite (update_todo_absent _ (Parsed (JObj fields)) _ Hmem). cbn [snd].
      now apply update_todo_absent. }
  rewrite (update_todo_object _ _ _ _ Hget). cbn [snd].
  set (d' := match lookup "completed" fields with
             | Some y => _ | None => _ end).
  assert (Hget' : Dict.get k d' = Some (apply_fields fields t)).
  { subst d'. unfold apply_fields.
    destruct (lookup "completed" fields), (lookup "title" fields);
      rewrite ?get_update_same, ?Hget; try reflexivity.
    destruct t; reflexivity. }
  rewrite (update_todo_object k fields (mkState d' (next_id s))
             (apply_fields fields t) Hget').
  cbn [todos next_id].
  f_equal.
  - do 3 f_equal. unfold apply_fields. cbn.
    destruct (lookup "title" fields), (lookup "completed" fields); reflexivity.
  - f_equal. subst d'.
    destruct (lookup "completed" fields) as [y|], (lookup "title" fields) as [x|];
      rewrite ?update_update; try reflexivity; apply update_ext; intros v;
      reflexivity.
Qed.

(** X6: the numbers [get_stats] answers are consistent for every state
    of the globals: [completed] lies between 0 and [total], [pending] is
    never negative and adds up with [completed] to [total], [total] is
    the length of the list [get_todos] answers, and [completion_rate] is
    the integer 0 exactly when the store is empty and a float
    otherwise. *)
Theorem stats_counts_are_consistent s :
  exists total completed pending rate,
    get_stats s =
      (Return (mkResponse
                 (Json (JObj [ ("total", JInt total);
                               ("completed", JInt completed);
                               ("pending", JInt pending);
                               ("completion_rate", rate) ]))
                 200), s) /\
    0 <= completed <= total /\
    0 <= pending /\
    completed + pending = total /\
    total = Z.of_nat (List.length (listing s)) /\
    get_todos s =
      (Return (mkResponse (Json (JArr (map todo_json (listing s)))) 200), s) /\
    (rate = JInt 0 <-> todos s = []) /\
    (todos s <> [] -> exists x, rate = JFloat x).
Proof.
  exists (stats_total s), (stats_completed s),
         (stats_total s - stats_completed s), (stats_rate s).
  split; [apply get_stats_eq|].
  assert (Hle : stats_completed s <= stats_total s).
  { unfold stats_completed, stats_total, Dict.values.
    pose proof (filter_length_le is_completed (map snd (todos s))) as H.
    rewrite length_map in H. lia. }
  assert (H0 : 0 <= stats_completed s) by (unfold stats_completed; lia).
  split; [lia|]. split; [lia|]. split; [lia|].
  split; [unfold stats_total, listing, Dict.values; now rewrite length_map|].
  split; [reflexivity|].
  unfold stats_rate, stats_total.
  destruct (todos s) as [|kt d]; cbn [List.length].
  - split; [split; reflexivity | congruence].
  - replace (Z.of_nat (S (List.length d)) >? 0) with true
      by (symmetry; apply Z.gtb_lt; lia).
    split; [split; discriminate | eauto].
Qed.

(** X7: setting [completed] on a stored record moves the statistics by
    that record alone: [total] stays, and [completed] goes down by one if
    the old value tested true and up by one if the new value does,
    whatever JSON values they are. *)
Theorem update_completed_moves_stats s k t v :
  Dict.get k (todos s) = Some t ->
  let s' := snd (update_todo k (Parsed (JObj [("completed", v)])) s) in
  stats_total s' = stats_total s /\
  stats_completed s' =
    stats_completed s - Z.b2z (truthy (t_completed t)) + Z.b2z (truthy v).
Proof.
  intros Hget. cbn zeta. rewrite (update_todo_object _ _ _ _ Hget).
  cbn [lookup String.eqb Ascii.eqb Bool.eqb snd].
  unfold stats_total, stats_completed. cbn [todos].
  destruct (update_splits (todos s) k (set_completed v) t Hget)
    as (d1 & d2 & Hd & Hup).
  rewrite Hup, Hd. unfold Dict.values.
  rewrite !map_app, !filter_app, !length_app.
  cbn [map snd filter List.length]. unfold is_completed.
  cbn [set_completed t_completed].
  set (n1 := List.length (filter _ (map snd d1))).
  set (f2 := filter _ (map snd d2)).
  destruct (truthy (t_completed t)), (truthy v); cbn [List.length Z.b2z];
    split; lia.
Qed.

Lemma update_completed_moves_stats_witness :
  Dict.get 1 (todos (initial_state epoch)) = Some first_seed /\
  stats_completed
    (snd (update_todo 1 (Parsed (JObj [("completed", JStr "yes")]))
            (initial_state epoch)))
  = stats_completed (initial_state epoch)
    - Z.b2z (truthy (t_completed first_seed)) + Z.b2z (truthy (JStr "yes")).
Proof.
  assert (H : Dict.get 1 (todos (initial_state epoch)) = Some first_seed)
    by reflexivity.
  split; [exact H|].
  exact (proj2 (update_completed_moves_stats (initial_state epoch) 1 first_seed
                  (JStr "yes") H)).
Defined.

Lemma counter_is_fresh s : store_ok s -> Dict.get (next_id s) (todos s) = None.
Proof.
  intros [_ _ Hfresh]. apply get_none_keys. intros Hin.
  specialize (Hfresh _ Hin). lia.
Qed.

(** X8: in an orderly state a successful create puts the new record at
    the end of the list [get_todos] answers, after all the records that
    were there, in their order; [total] goes up by one and [completed]
    stays. *)
Theorem create_appends_to_listing now fields x s :
  store_ok s ->
  lookup "title" fields = Some x ->
  let s' := snd (create_todo now (Parsed (JObj fields)) s) in
  let t := mkTodo (next_id s) x (JBool false) (isoformat now) in
  listing s' = (listing s ++ [t])%list /\
  get_todos s' =
    (Return (mkResponse
               (Json (JArr (map todo_json (listing s) ++ [todo_json t])%list)) 200),
     s') /\
  stats_total s' = stats_total s + 1 /\
  stats_completed s' = stats_completed s.
Proof.
  intros Hok Hx. cbn zeta. rewrite create_todo_object, Hx. cbn [snd].
  pose proof (counter_is_fresh s Hok) as Hfresh.
  set (t := mkTodo (next_id s) x (JBool false) (isoformat now)).
  set (s' := mkState (Dict.set (next_id s) t (todos s)) (next_id s + 1)).
  assert (Hl : listing s' = (listing s ++ [t])%list)
    by (unfold listing; cbn [todos s']; now apply values_set_fresh).
  split; [exact Hl|]. split.
  { change (get_todos s')
      with (Return (mkResponse (Json (JArr (map todo_json (listing s')))) 200), s').
    rewrite Hl, map_app. reflexivity. }
  unfold stats_total, stats_completed. fold (listing s'). fold (listing s).
  rewrite Hl. cbn [todos s']. rewrite (length_set_fresh _ _ _ Hfresh).
  rewrite filter_app, length_app. cbn. split; lia.
Qed.

Lemma create_appends_to_listing_witness :
  store_ok (initial_state epoch) /\
  lookup "title" [("title", JStr "Test Task")] = Some (JStr "Test Task") /\
  listing (snd (create_todo epoch (Parsed (JObj [("title", JStr "Test Task")]))
                  (initial_state epoch)))
  = (listing (initial_state epoch)
       ++ [mkTodo (next_id (initial_state epoch)) (JStr "Test Task") (JBool false)
             (isoformat epoch)])%list.
Proof.
  split; [exact (store_ok_initial epoch)|]. split; [reflexivity|].
  exact (proj1 (create_appends_to_listing epoch [("title", JStr "Test Task")]
                  (JStr "Test Task") (initial_state epoch)
                  (store_ok_initial epoch) eq_refl)).
Defined.

(** X9: [update_todo] never adds, removes or reorders records and never
    touches the counter, whatever the id and the body and whether it
    answers or raises: the list [get_todos] answers has the same length
    and the same ids in the same order afterwards, and the store has the
    same keys. *)
Theorem update_keeps_listing_order k p s :
  let s' := snd (update_todo k p s) in
  map t_id (listing s') = map t_id (listing s) /\
  List.length (listing s') = List.length (listing s) /\
  Dict.keys (todos s') = Dict.keys (todos s) /\
  next_id s' = next_id s.
Proof.
  cbn zeta. destruct (update_todo_cases k p s) as (out & d' & Heq & Hsh & _).
  rewrite Heq. cbn [snd]. unfold listing. cbn [todos next_id].
  split; [now apply shape_ids|].
  split; [unfold Dict.values; rewrite !length_map; now apply shape_length|].
  split; [now rewrite !shape_keys, Hsh | reflexivity].
Qed.

(** X10: [delete_todo] on an id in the store takes exactly that record
    out of the list [get_todos] answers and keeps the others in their
    order: the list before is [l1 ++ t :: l2], the list after is
    [l1 ++ l2]; [total] goes down by one. *)
Theorem delete_splices_listing k t s :
  Dict.get k (todos s) = Some t ->
  let s' := snd (delete_todo k s) in
  (exists l1 l2,
     listing s = (l1 ++ t :: l2)%list /\ listing s' = (l1 ++ l2)%list) /\
  stats_total s' = stats_total s - 1.
Proof.
  intros Hget. cbn zeta. rewrite (delete_todo_present _ _ _ Hget). cbn [snd].
  destruct (remove_splits _ _ _ Hget) as (d1 & d2 & Hd & Hrm & _).
  unfold listing, stats_total. cbn [todos]. rewrite Hrm, Hd. split.
  - exists (Dict.values d1), (Dict.values d2). unfold Dict.values.
    rewrite !map_app. split; reflexivity.
  - rewrite !length_app. cbn [List.length]. lia.
Qed.

Lemma delete_splices_listing_witness :
  Dict.get 1 (todos (initial_state epoch)) = Some first_seed /\
  stats_total (snd (delete_todo 1 (initial_state epoch)))
  = stats_total (initial_state epoch) - 1.
Proof.
  assert (H : Dict.get 1 (todos (initial_state epoch)) = Some first_seed)
    by reflexivity.
  split; [exact H|].
  exact (proj2 (delete_splices_listing 1 first_seed (initial_state epoch) H)).
Defined.

(** X11: in an orderly state, creating a record and then deleting the id
    just handed out gives back the record that was created and restores
    the mapping exactly, records and order; only the counter has moved,
    by one. *)
Theorem create_then_delete_restores_store now fields x s :
  store_ok s ->
  lookup "title" fields = Some x ->
  let s1 := snd (create_todo now (Parsed (JObj fields)) s) in
  delete_todo (next_id s) s1 =
  (Return (mkResponse
             (Json (todo_json (mkTodo (next_id s) x (JBool false) (isoformat now))))
             200),
   mkState (todos s) (next_id s + 1)).
Proof.
  intros Hok Hx. cbn zeta. rewrite create_todo_object, Hx. cbn [snd].
  erewrite delete_todo_present by (cbn [todos]; apply get_set_same).
  cbn [todos next_id].
  rewrite (remove_set_fresh _ _ _ (counter_is_fresh s Hok)). reflexivity.
Qed.

Lemma create_then_delete_restores_store_witness :
  store_ok (initial_state epoch) /\
  lookup "title" [("title", JStr "Delete Me")] = Some (JStr "Delete Me") /\
  delete_todo (next_id (initial_state epoch))
    (snd (create_todo epoch (Parsed (JObj [("title", JStr "Delete Me")]))
            (initial_state epoch)))
  = (Return (mkResponse
               (Json (todo_json (mkTodo (next_id (initial_state epoch))
                                   (JStr "Delete Me") (JBool false)
                                   (isoformat epoch))))
               200),
     mkState (todos (initial_state epoch)) (next_id (initial_state epoch) + 1)).
Proof.
  split; [exact (store_ok_initial epoch)|]. split; [reflexivity|].
  exact (create_then_delete_restores_store epoch [("title", JStr "Delete Me")]
           (JStr "Delete Me") (initial_state epoch)
           (store_ok_initial epoch) eq_refl).
Defined.

(** X12: in an orderly state, deleting an id a second time is answered
    404 and changes nothing more. *)
Theorem delete_twice_not_found k t s :
  store_ok s ->
  Dict.get k (todos s) = Some t ->
  let s1 := snd (delete_todo k s) in
  delete_todo k s1 =
  (Return (mkResponse (Json (error_json "Todo not found")) 404), s1).
Proof.
  intros [Hkeys _ _] Hget. cbn zeta.
  rewrite (delete_todo_present _ _ _ Hget). cbn [snd].
  apply delete_todo_absent. cbn [todos]. now apply get_remove_same.
Qed.

Lemma delete_twice_not_found_witness :
  store_ok (initial_state epoch) /\
  Dict.get 2 (todos (initial_state epoch))
    = Some (mkTodo 2 (JStr "Build CI/CD pipeline") (JBool false) (isoformat epoch)) /\
  delete_todo 2 (snd (delete_todo 2 (initial_state epoch)))
  = (Return (mkResponse (Json (error_json "Todo not found")) 404),
     snd (delete_todo 2 (initial_state epoch))).
Proof.
  split; [exact (store_ok_initial epoch)|]. split; [reflexivity|].
  exact (delete_twice_not_found 2 _ (initial_state epoch)
           (store_ok_initial epoch) eq_refl).
Defined.

(** X13: over any sequence of requests from any state, the ids handed
    out by the successful creates are consecutive integers starting at
    the counter's value, with no gap even when other requests fail or
    delete records in between, and the counter ends up at its start
    value plus the number of successful creates. *)
Theorem created_ids_are_consecutive c reqs s :
  let run := serve c reqs s in
  created_ids (fst run) =
    consecutive (next_id s) (List.length (created_ids (fst run))) /\
  next_id (snd run) = next_id s + Z.of_nat (List.length (created_ids (fst run))).
Proof.
  cbn zeta. revert s. induction reqs as [|[now r] reqs IH]; intros s.
  - cbn. split; [reflexivity | lia].
  - rewrite serve_cons. cbn [fst snd created_ids].
    destruct (IH (snd (full_dispatch_request c now r s))) as [IHc IHn].
    destruct (step_effect c now r s) as [(Hn & Hc & _)|(Hc & x & stamp & Hs)];
      cbn zeta in *; rewrite Hc.
    + rewrite Hn in IHc, IHn. split; assumption.
    + assert (Hn : next_id (snd (full_dispatch_request c now r s)) = next_id s + 1)
        by (rewrite Hs; reflexivity).
      rewrite Hn in IHc, IHn. cbn [List.length consecutive]. split.
      * f_equal. exact IHc.
      * lia.
Qed.

Lemma step_size c now r s :
  store_ok s ->
  stats_total (snd (full_dispatch_request c now r s)) =
  stats_total s
  + Z.of_nat (List.length (created_ids [(r, fst (full_dispatch_request c now r s))]))
  - Z.of_nat (List.length (deleted_ids [(r, fst (full_dispatch_request c now r s))])).
Proof.
  intros Hok. unfold stats_total.
  assert (Hte : forall p0,
            created_ids [(POST_todos p0, handle_exception c TypeError)] = [])
    by (intros p0; unfold handle_exception; destruct (propagate_exceptions c);
        reflexivity).
  destruct r as [| | | | p | k | k p | k | |].
  1-4: rewrite read_outcome by reflexivity; cbn; lia.
  - assert (Hd : forall out, deleted_ids [(POST_todos p, out)] = [])
      by reflexivity.
    rewrite Hd. cbn [List.length].
    rewrite post_outcome. generalize (isoformat now). intros stamp.
    destruct p as [|data]; [cbn; lia|].
    destruct (negb (truthy data)); [cbn; lia|].
    destruct data as [| b | n | x | str | items | fields];
      try (cbn [fst snd]; rewrite Hte; cbn; lia).
    + destruct (mentions "title" (JStr str)); cbn [fst snd]; rewrite ?Hte; cbn; lia.
    + destruct (mentions "title" (JArr items)); cbn [fst snd]; rewrite ?Hte; cbn; lia.
    + destruct (lookup "title" fields); [|cbn; lia].
      cbn [fst snd todos].
      rewrite (length_set_fresh _ _ _ (counter_is_fresh s Hok)). cbn. lia.
  - rewrite read_outcome by reflexivity; cbn; lia.
  - assert (Hc : forall out, created_ids [(PUT_todo k p, out)] = []) by reflexivity.
    assert (Hd : forall out, deleted_ids [(PUT_todo k p, out)] = []) by reflexivity.
    rewrite Hc, Hd. cbn [List.length].
    unfold full_dispatch_request. cbn [dispatch_request].
    destruct (update_todo_cases k p s) as (out & d' & Heq & Hsh & _).
    rewrite Heq. destruct out; cbn [snd todos]; rewrite (shape_length _ _ Hsh); lia.
  - rewrite delete_outcome. destruct (Dict.get k (todos s)) as [t|] eqn:Hget.
    + cbn [fst snd todos]. destruct (remove_splits _ _ _ Hget) as (d1 & d2 & Hd & Hrm & _).
      rewrite Hrm, Hd, !length_app. cbn. lia.
    + cbn. lia.
  - cbn. lia.
  - cbn. lia.
Qed.

Lemma created_ids_cons ev log :
  List.length (created_ids (ev :: log)) =
  (List.length (created_ids [ev]) + List.length (created_ids log))%nat.
Proof. cbn [created_ids]. destruct (created_id ev); reflexivity. Qed.

Lemma deleted_ids_cons ev log :
  List.length (deleted_ids (ev :: log)) =
  (List.length (deleted_ids [ev]) + List.length (deleted_ids log))%nat.
Proof. cbn [deleted_ids]. destruct (deleted_id ev); reflexivity. Qed.

(** X14: over any sequence of requests from an orderly state, the number
    of records in the store is the number there was, plus the number of
    creates answered 201, minus the number of deletes answered 200;
    nothing else adds or removes a record. *)
Theorem store_size_bookkeeping c reqs s :
  store_ok s ->
  let run := serve c reqs s in
  stats_total (snd run) =
  stats_total s
  + Z.of_nat (List.length (created_ids (fst run)))
  - Z.of_nat (List.length (deleted_ids (fst run))).
Proof.
  cbn zeta. revert s. induction reqs as [|[now r] reqs IH]; intros s Hok.
  - cbn. lia.
  - rewrite serve_cons. cbn [fst snd].
    rewrite created_ids_cons, deleted_ids_cons.
    rewrite (IH _ (step_store_ok c now r s Hok)).
    rewrite (step_size c now r s Hok). lia.
Qed.

Lemma store_size_bookkeeping_witness :
  store_ok (initial_state epoch) /\
  stats_total (snd (serve wsgi_config create_delete_create (initial_state epoch))) =
  stats_total (initial_state epoch)
  + Z.of_nat (List.length
                (created_ids (fst (serve wsgi_config create_delete_create (initial_state epoch)))))
  - Z.of_nat (List.length
                (deleted_ids (fst (serve wsgi_config create_delete_create (initial_state epoch))))).
Proof.
  split; [exact (store_ok_initial epoch)|].
  exact (store_size_bookkeeping wsgi_config create_delete_create (initial_state epoch)
           (store_ok_initial epoch)).
Defined.

Lemma step_keys c now r s k :
  In k (Dict.keys (todos (snd (full_dispatch_request c now r s)))) ->
  In k (Dict.keys (todos s)) \/ k = next_id s.
Proof.
  destruct (step_effect c now r s) as [(_ & _ & [Hsh|(k0 & Hrm)])|(_ & x & stamp & Hs)];
    cbn zeta in *.
  - rewrite !shape_keys, Hsh. auto.
  - rewrite Hrm. intros H. left. eapply keys_remove_incl; eauto.
  - rewrite Hs. cbn [todos]. intros H. apply keys_set in H. tauto.
Qed.

(** X15: whatever requests the service has handled since start-up, the
    globals are orderly and the ids are positive: the counter is at
    least 3, every key of the store is at least 1 and below the counter,
    keys are distinct, and every record is filed under its own [id]. *)
Theorem reachable_ids_positive c boot reqs :
  let s := snd (serve c reqs (initial_state boot)) in
  3 <= next_id s /\
  NoDup (Dict.keys (todos s)) /\
  (forall k t, In (k, t) (todos s) -> 1 <= k < next_id s /\ t_id t = k) /\
  (forall k t, Dict.get k (todos s) = Some t -> 1 <= t_id t < next_id s).
Proof.
  cbn zeta.
  assert (Hgen : forall reqs s,
            1 <= next_id s ->
            (forall k, In k (Dict.keys (todos s)) -> 1 <= k) ->
            forall k, In k (Dict.keys (todos (snd (serve c reqs s)))) -> 1 <= k).
  { clear. induction reqs as [|[now r] reqs IH]; intros s Hn Hk; [exact Hk|].
    rewrite serve_cons. cbn [snd]. apply IH.
    - pose proof (step_counter c now r s). lia.
    - intros k Hin. apply step_keys in Hin. destruct Hin as [Hin| ->]; auto. }
  pose proof (serve_store_ok c reqs _ (store_ok_initial boot)) as [Hkeys Hids Hfresh].
  pose proof (serve_counter c reqs (initial_state boot)) as Hcount.
  cbn [initial_state next_id] in Hcount.
  assert (Hpos : forall k,
            In k (Dict.keys (todos (snd (serve c reqs (initial_state boot))))) -> 1 <= k).
  { apply Hgen; [cbn; lia|].
    cbn [initial_state todos Dict.keys map fst]. intros k [<-|[<-|[]]]; lia. }
  split; [exact Hcount|]. split; [exact Hkeys|].
  assert (Hin : forall k t,
            In (k, t) (todos (snd (serve c reqs (initial_state boot)))) ->
            1 <= k < next_id (snd (serve c reqs (initial_state boot))) /\ t_id t = k).
  { intros k t Hin. pose proof (in_keys _ _ _ Hin) as Hk.
    split; [split; [now apply Hpos | now apply Hfresh] | now apply Hids]. }
  split; [exact Hin|].
  intros k t Hget. apply get_in in Hget. destruct (Hin _ _ Hget) as [Hb ->]. exact Hb.
Qed.

Lemma reachable_ids_positive_witness :
  3 <= next_id (snd (serve wsgi_config create_delete_create (initial_state epoch))) /\
  NoDup (Dict.keys (todos (snd (serve wsgi_config create_delete_create (initial_state epoch))))).
Proof.
  pose proof (reachable_ids_positive wsgi_config epoch create_delete_create) as H.
  cbn zeta in H. split; [exact (proj1 H) | exact (proj1 (proj2 H))].
Defined.

(** *** Records over a run *)

Lemma put_get c now k0 p s k :
  match Dict.get k (todos s) with
  | Some t =>
      exists t',
        Dict.get k (todos (snd (full_dispatch_request c now (PUT_todo k0 p) s))) = Some t' /\
        t_id t' = t_id t /\ t_created_at t' = t_created_at t
  | None =>
      Dict.get k (todos (snd (full_dispatch_request c now (PUT_todo k0 p) s))) = None
  end.
Proof.
  assert (Hsame : match Dict.get k (todos s) with
                  | Some t => exists t', Dict.get k (todos s) = Some t' /\
                                t_id t' = t_id t /\ t_created_at t' = t_created_at t
                  | None => Dict.get k (todos s) = None
                  end)
    by (destruct (Dict.get k (todos s)); eauto).
  destruct (Dict.get k0 (todos s)) as [t0|] eqn:H0.
  2:{ rewrite (put_absent _ _ _ _ _ H0). exact Hsame. }
  rewrite (put_outcome _ _ _ _ _ _ H0).
  destruct p as [|data]; [exact Hsame|].
  destruct data as [| b | n | x | str | items | fields]; try exact Hsame.
  - cbn [is_sequence].
    destruct (mentions "title" (JStr str) || mentions "completed" (JStr str));
      exact Hsame.
  - cbn [is_sequence].
    destruct (mentions "title" (JArr items) || mentions "completed" (JArr items));
      exact Hsame.
  - rewrite (update_todo_object _ _ _ _ H0). cbn [snd todos].
    destruct (Z.eq_dec k k0) as [->|Hne].
    + rewrite H0.
      destruct (lookup "completed" fields), (lookup "title" fields);
        rewrite ?get_update_same, ?H0; cbn [option_map]; eauto.
    + destruct (lookup "completed" fields), (lookup "title" fields);
        rewrite ?get_update_other by assumption; exact Hsame.
Qed.

Lemma step_record c now r s k :
  store_ok s -> k < next_id s ->
  match Dict.get k (todos s) with
  | Some t =>
      Dict.get k (todos (snd (full_dispatch_request c now r s))) = None \/
      exists t',
        Dict.get k (todos (snd (full_dispatch_request c now r s))) = Some t' /\
        t_id t' = t_id t /\ t_created_at t' = t_created_at t
  | None => Dict.get k (todos (snd (full_dispatch_request c now r s))) = None
  end.
Proof.
  intros Hok Hlt.
  assert (Hsame : match Dict.get k (todos s) with
                  | Some t => Dict.get k (todos s) = None \/
                              exists t', Dict.get k (todos s) = Some t' /\
                                t_id t' = t_id t /\ t_created_at t' = t_created_at t
                  | None => Dict.get k (todos s) = None
                  end)
    by (destruct (Dict.get k (todos s)); eauto).
  destruct r as [| | | | p | k0 | k0 p | k0 | |].
  1-4: rewrite read_outcome by reflexivity; exact Hsame.
  - destruct (step_effect c now (POST_todos p) s)
      as [(_ & Hc & _)|(_ & x & stamp & Hs)]; cbn zeta in *.
    + destruct (create_todo_cases now p s) as [(out & Heq & _)|(x & Heq)].
      * unfold full_dispatch_request. cbn [dispatch_request]. rewrite Heq.
        destruct out; exact Hsame.
      * exfalso. unfold full_dispatch_request in Hc. cbn [dispatch_request] in Hc.
        cbn zeta in Heq. rewrite Heq in Hc. cbn in Hc. discriminate.
    + rewrite Hs. cbn [todos]. rewrite get_set_other by lia. exact Hsame.
  - rewrite read_outcome by reflexivity; exact Hsame.
  - pose proof (put_get c now k0 p s k) as H.
    destruct (Dict.get k (todos s)); [right|]; exact H.
  - rewrite delete_outcome. destruct (Dict.get k0 (todos s)) as [t0|] eqn:H0;
      [|exact Hsame]. cbn [snd todos].
    destruct (Z.eq_dec k k0) as [->|Hne].
    + rewrite (get_remove_same _ _ (ok_keys _ Hok)).
      destruct (Dict.get k0 (todos s)); auto.
    + rewrite (get_remove_other _ _ _ Hne). exact Hsame.
  - exact Hsame.
  - exact Hsame.
Qed.

(** X16: a record's [id] and [created_at] never change: over any
    sequence of requests from an orderly state, an id that holds a
    record at the start either holds no record at the end (it was
    deleted, and is not handed out again) or holds a record with the
    same [id] and the same [created_at]; an id below the counter that
    holds no record never gets one. *)
Theorem record_identity_is_stable c reqs s k :
  store_ok s ->
  k < next_id s ->
  let s' := snd (serve c reqs s) in
  match Dict.get k (todos s) with
  | Some t =>
      Dict.get k (todos s') = None \/
      exists t', Dict.get k (todos s') = Some t' /\
                 t_id t' = t_id t /\ t_created_at t' = t_created_at t
  | None => Dict.get k (todos s') = None
  end.
Proof.
  cbn zeta. revert s. induction reqs as [|[now r] reqs IH]; intros s Hok Hlt.
  - cbn [serve snd]. destruct (Dict.get k (todos s)); eauto.
  - rewrite serve_cons. cbn [snd].
    pose proof (step_record c now r s k Hok Hlt) as Hstep.
    pose proof (step_counter c now r s) as Hmono.
    specialize (IH (snd (full_dispatch_request c now r s))
                   (step_store_ok c now r s Hok) ltac:(lia)).
    destruct (Dict.get k (todos s)) as [t|].
    + destruct Hstep as [Hnone|(t1 & Hsome & Hid & Hcr)].
      * rewrite Hnone in IH. auto.
      * rewrite Hsome in IH. destruct IH as [IH|(t' & Ht' & Hid' & Hcr')]; [auto|].
        right. exists t'. repeat split; congruence.
    + rewrite Hstep in IH. exact IH.
Qed.

Lemma record_identity_is_stable_witness :
  store_ok (initial_state epoch) /\
  1 < next_id (initial_state epoch) /\
  (Dict.get 1 (todos (snd (serve wsgi_config create_delete_create (initial_state epoch)))) = None \/
   exists t',
     Dict.get 1 (todos (snd (serve wsgi_config create_delete_create (initial_state epoch))))
       = Some t' /\
     t_id t' = t_id first_seed /\ t_created_at t' = t_created_at first_seed).
Proof.
  assert (H : 1 < next_id (initial_state epoch)) by (cbn; lia).
  split; [exact (store_ok_initial epoch)|]. split; [exact H|].
  exact (record_identity_is_stable wsgi_config create_delete_create (initial_state epoch) 1
           (store_ok_initial epoch) H).
Defined.

(** *** Order of the listing *)

Lemma keys_set_fresh {V} (d : list (Z * V)) k v :
  Dict.get k d = None -> Dict.keys (Dict.set k v d) = (Dict.keys d ++ [k])%list.
Proof.
  unfold Dict.keys. induction d as [|[k0 v0] d IH]; cbn; [reflexivity|].
  destruct (k0 =? k); [discriminate|]. intros H. cbn. now rewrite IH.
Qed.

Lemma sorted_snoc (l : list Z) k :
  StronglySorted Z.lt l -> Forall (fun x => x < k) l ->
  StronglySorted Z.lt (l ++ [k]).
Proof.
  induction 1 as [|a l Hs IH Hall]; intros Hlt; cbn.
  - repeat constructor.
  - inversion Hlt as [|? ? Ha Hl]; subst. constructor; [auto|].
    apply Forall_app. split; [exact Hall | repeat constructor; exact Ha].
Qed.

Lemma sorted_remove {V} (d : list (Z * V)) k :
  StronglySorted Z.lt (Dict.keys d) ->
  StronglySorted Z.lt (Dict.keys (Dict.remove k d)).
Proof.
  induction d as [|[k0 v0] d IH]; cbn; [auto|].
  intros Hs. inversion Hs as [|? ? Hs' Hall]; subst.
  destruct (k0 =? k); cbn; [exact Hs'|].
  constructor; [auto|].
  rewrite Forall_forall in *. intros x Hx. apply Hall.
  eapply keys_remove_incl; eauto.
Qed.

Lemma ids_are_keys (d : list (Z * todo)) :
  (forall k t, In (k, t) d -> t_id t = k) ->
  map t_id (Dict.values d) = Dict.keys d.
Proof.
  unfold Dict.values, Dict.keys. induction d as [|[k t] d IH]; intros H; cbn;
    [reflexivity|].
  rewrite (H k t (or_introl eq_refl)). f_equal. apply IH.
  intros k' t' Hin. apply H. now right.
Qed.

Lemma step_sorted c now r s :
  store_ok s ->
  StronglySorted Z.lt (Dict.keys (todos s)) ->
  StronglySorted Z.lt (Dict.keys (todos (snd (full_dispatch_request c now r s)))).
Proof.
  intros Hok Hs.
  destruct (step_effect c now r s) as [(_ & _ & [Hsh|(k0 & Hrm)])|(_ & x & stamp & Hst)];
    cbn zeta in *.
  - now rewrite !shape_keys, Hsh, <- shape_keys.
  - rewrite Hrm. now apply sorted_remove.
  - rewrite Hst. cbn [todos].
    rewrite (keys_set_fresh _ _ _ (counter_is_fresh s Hok)).
    apply sorted_snoc; [exact Hs|].
    rewrite Forall_forall. intros k Hk. now apply (ok_fresh _ Hok).
Qed.

(** X17: whatever requests the service has handled since start-up, the
    list [get_todos] answers (and [index] renders) is in ascending order
    of [id]: records come out in the order they were created. *)
Theorem listing_sorted_by_id c boot reqs :
  let s := snd (serve c reqs (initial_state boot)) in
  StronglySorted Z.lt (map t_id (listing s)) /\
  get_todos s =
    (Return (mkResponse (Json (JArr (map todo_json (listing s)))) 200), s) /\
  index s = (Return (mkResponse (Template "index.html" (listing s)) 200), s).
Proof.
  cbn zeta.
  assert (Hgen : forall reqs s,
            store_ok s -> StronglySorted Z.lt (Dict.keys (todos s)) ->
            StronglySorted Z.lt (Dict.keys (todos (snd (serve c reqs s))))).
  { clear. induction reqs as [|[now r] reqs IH]; intros s Hok Hs; [exact Hs|].
    rewrite serve_cons. cbn [snd]. apply IH.
    - now apply step_store_ok.
    - now apply step_sorted. }
  pose proof (serve_store_ok c reqs _ (store_ok_initial boot)) as Hok.
  split; [|split; reflexivity].
  unfold listing. rewrite (ids_are_keys _ (ok_ids _ Hok)).
  apply Hgen; [apply store_ok_initial|].
  cbn [initial_state todos Dict.keys map fst].
  repeat constructor; lia.
Qed.
